(** * bitcash: the rest.bitcoin.com client ([bitcash/network/APIs/BitcoinDotComAPI.py])

    A shallow embedding of the [BitcoinDotComAPI] class and of the part of the
    Python runtime it runs on ([str] slicing and [str.format], [dict] and
    [list] access, [decimal.Decimal] under the default context, the [requests]
    response object), followed by the properties of the client. *)

From Stdlib Require Import ZArith List String Ascii Bool Lia.
Import ListNotations.

Set Warnings "-register-all".

Local Open Scope Z_scope.

(** ** Exceptions and results of calls *)

(** The exceptions a call of the client can end with.  [NotModelled] marks the
    places where the behaviour of the Python runtime lies outside the fragment
    embedded here (binary floating point, exotic [str.format] fields, the
    tuple form of the [Decimal] constructor). *)
Inductive exn : Type :=
| InvalidEndpointURLProvided
| AssertionError
| KeyError
| IndexError
| TypeError
| ValueError
| InvalidOperation
| Overflow
| HTTPError
| RequestException
| JSONDecodeError
| NotModelled.

Inductive result (A : Type) : Type :=
| Ok (a : A)
| Raise (e : exn).

Arguments Ok {A} a.
Arguments Raise {A} e.

Definition bind {A B : Type} (r : result A) (k : A -> result B) : result B :=
  match r with
  | Ok a => k a
  | Raise e => Raise e
  end.

Notation "x <- r ;; k" := (bind r (fun x => k))
  (at level 61, r at next level, right associativity).

(** [for x in l: ...] with a body that may raise: the bodies run in order and
    the first exception ends the loop. *)
Fixpoint mapM {A B : Type} (f : A -> result B) (l : list A) : result (list B) :=
  match l with
  | [] => Ok []
  | x :: l' => y <- f x ;; ys <- mapM f l' ;; Ok (y :: ys)
  end.

(** ** Strings *)

Fixpoint str_take (n : nat) (s : string) : string :=
  match n, s with
  | S n', String c s' => String c (str_take n' s')
  | _, _ => EmptyString
  end.

Fixpoint str_drop (n : nat) (s : string) : string :=
  match n, s with
  | S n', String _ s' => str_drop n' s'
  | _, _ => s
  end.

(** [s[:k]] for a literal [k >= 0]. *)
Definition slice_to (k : nat) (s : string) : string := str_take k s.

(** [s[-k:]] for a literal [k > 0]: the last [k] characters, the whole string
    when it is shorter. *)
Definition slice_last (k : nat) (s : string) : string :=
  str_drop (String.length s - k) s.

(** [sub in s] on strings. *)
Fixpoint str_contains (sub s : string) : bool :=
  if String.prefix sub s then true
  else match s with
       | EmptyString => false
       | String _ s' => str_contains sub s'
       end.

(** ** [decimal.Decimal] under the default context *)

Module PyDecimal.

(** The default context: 28 digits, ROUND_HALF_EVEN, exponents within
    +-999999, no clamping; Overflow and InvalidOperation are trapped. *)
Definition prec : Z := 28.
Definition Emax : Z := 999999.
Definition Emin : Z := -999999.
Definition Etiny : Z := Emin - prec + 1.
Definition Etop : Z := Emax - prec + 1.

(** A finite number is [(-1)^neg * coeff * 10^exp] with [0 <= coeff]. *)
Inductive decimal : Type :=
| Fin (neg : bool) (coeff : Z) (exp : Z)
| Inf (neg : bool)
| NaN (neg : bool) (signal : bool) (diag : Z).

Fixpoint ndigits_from (fuel : nat) (k : Z) (c : Z) : Z :=
  match fuel with
  | O => k
  | S f => if c <? 10 ^ k then k else ndigits_from f (k + 1) c
  end.

(** [len(str(c))]: the number of decimal digits of [c >= 0] (1 for 0). *)
Definition ndigits (c : Z) : Z := ndigits_from (Z.to_nat (Z.log2 c)) 1 c.

(** The coefficient [c] without its [k > 0] low digits, rounded half to even. *)
Definition round_half_even (c k : Z) : Z :=
  let q := c / 10 ^ k in
  let r := c mod 10 ^ k in
  let half := 5 * 10 ^ (k - 1) in
  if (half <? r) || ((r =? half) && Z.odd q) then q + 1 else q.

(** [Decimal._fix]: round to the context's precision, keep the exponent in
    range.  Of the signals it sets only Overflow is trapped. *)
Definition fix_ (d : decimal) : result decimal :=
  match d with
  | Fin s c e =>
      if c =? 0 then Ok (Fin s 0 (Z.min (Z.max e Etiny) Emax))
      else
        let exp_min0 := ndigits c + e - prec in
        if Etop <? exp_min0 then Raise Overflow
        else
          let exp_min := Z.max exp_min0 Etiny in
          if e <? exp_min then
            let coeff := round_half_even c (exp_min - e) in
            let coeff' := if prec <? ndigits coeff then coeff / 10 else coeff in
            let exp_min' := if prec <? ndigits coeff then exp_min + 1 else exp_min in
            if Etop <? exp_min' then Raise Overflow
            else Ok (Fin s coeff' exp_min')
          else Ok d
  | Inf _ => Ok d
  | NaN s sg diag => Ok (NaN s sg (diag mod 10 ^ prec))
  end.

(** [Decimal.__mul__] on two Decimals. *)
Definition mul (a b : decimal) : result decimal :=
  match a, b with
  | NaN _ true _, _ => Raise InvalidOperation
  | _, NaN _ true _ => Raise InvalidOperation
  | NaN _ false _, _ => fix_ a
  | _, NaN _ false _ => fix_ b
  | Inf s1, Inf s2 => Ok (Inf (xorb s1 s2))
  | Inf s1, Fin s2 c2 _ =>
      if c2 =? 0 then Raise InvalidOperation else Ok (Inf (xorb s1 s2))
  | Fin s1 c1 _, Inf s2 =>
      if c1 =? 0 then Raise InvalidOperation else Ok (Inf (xorb s1 s2))
  | Fin s1 c1 e1, Fin s2 c2 e2 => fix_ (Fin (xorb s1 s2) (c1 * c2) (e1 + e2))
  end.

Fixpoint strip_zeros (fuel : nat) (c e : Z) : Z * Z :=
  match fuel with
  | O => (c, e)
  | S f =>
      if (c mod 10 =? 0) && (e <? Emax)
      then strip_zeros f (c / 10) (e + 1)
      else (c, e)
  end.

(** [Decimal.normalize]: round, then strip the trailing zeros of the
    coefficient; every zero becomes [0E0]. *)
Definition normalize (d : decimal) : result decimal :=
  match d with
  | NaN _ true _ => Raise InvalidOperation
  | _ =>
      dup <- fix_ d ;;
      match dup with
      | Fin s c e =>
          if c =? 0 then Ok (Fin s 0 0)
          else let '(c', e') := strip_zeros (Z.to_nat (ndigits c)) c e in
               Ok (Fin s c' e')
      | _ => Ok dup
      end
  end.

(** [Decimal(n)] for an [int]: exact. *)
Definition of_int (n : Z) : decimal := Fin (n <? 0) (Z.abs n) 0.

(** *** [Decimal(s)] for a [str] *)

Definition is_digit (c : ascii) : bool :=
  let n := nat_of_ascii c in (48 <=? n)%nat && (n <=? 57)%nat.

Definition digit_val (c : ascii) : Z := Z.of_nat (nat_of_ascii c) - 48.

Definition is_space (c : ascii) : bool :=
  let n := nat_of_ascii c in
  ((9 <=? n)%nat && (n <=? 13)%nat) || ((28 <=? n)%nat && (n <=? 32)%nat).

Definition to_lower (c : ascii) : ascii :=
  let n := nat_of_ascii c in
  if (65 <=? n)%nat && (n <=? 90)%nat then ascii_of_nat (n + 32) else c.

Fixpoint span_digits (l : list ascii) : list ascii * list ascii :=
  match l with
  | c :: r =>
      if is_digit c
      then let '(d, rest) := span_digits r in (c :: d, rest)
      else ([], l)
  | [] => ([], [])
  end.

Definition digits_value (ds : list ascii) : Z :=
  fold_left (fun acc c => 10 * acc + digit_val c) ds 0.

Fixpoint lstrip (l : list ascii) : list ascii :=
  match l with
  | c :: r => if is_space c then lstrip r else l
  | [] => []
  end.

(** [s.strip().replace("_", "")] *)
Definition clean (l : list ascii) : list ascii :=
  filter (fun c => negb (Ascii.eqb c "_"))
         (rev (lstrip (rev (lstrip l)))).

Definition parse_sign (l : list ascii) : bool * list ascii :=
  match l with
  | c :: r =>
      if Ascii.eqb c "-" then (true, r)
      else if Ascii.eqb c "+" then (false, r)
      else (false, l)
  | [] => (false, l)
  end.

(** The text after [E]: an optional sign and at least one digit, to the end. *)
Definition parse_exp (l : list ascii) : option Z :=
  let '(neg, r) := parse_sign l in
  match span_digits r with
  | ((_ :: _) as ds, []) => Some (if neg then - digits_value ds else digits_value ds)
  | _ => None
  end.

(** A number: digits with an optional point and an optional exponent, with at
    least one digit before the exponent.  Gives coefficient and exponent. *)
Definition parse_number (l : list ascii) : option (Z * Z) :=
  let '(ip, r1) := span_digits l in
  let '(fp, r2) :=
    match r1 with
    | c :: r => if Ascii.eqb c "." then span_digits r else ([], r1)
    | [] => ([], r1)
    end in
  match (ip ++ fp)%list with
  | [] => None
  | ds =>
      match r2 with
      | [] => Some (digits_value ds, - Z.of_nat (List.length fp))
      | c :: r3 =>
          if Ascii.eqb (to_lower c) "e"
          then match parse_exp r3 with
               | Some x => Some (digits_value ds, x - Z.of_nat (List.length fp))
               | None => None
               end
          else None
      end
  end.

Definition parse_nan (l : list ascii) : option (bool * Z) :=
  let body signal r :=
    match span_digits r with
    | (ds, []) => Some (signal, digits_value ds)
    | _ => None
    end in
  match map to_lower l with
  | "n"%char :: "a"%char :: "n"%char :: r => body false r
  | "s"%char :: "n"%char :: "a"%char :: "n"%char :: r => body true r
  | _ => None
  end.

Definition parse_inf (l : list ascii) : bool :=
  let t := string_of_list_ascii (map to_lower l) in
  String.eqb t "inf" || String.eqb t "infinity".

(** The constructor converts exactly, under the widest context of the C
    implementation on a 64-bit platform: exponents within
    +-999999999999999999 and as many digits.  A number whose adjusted
    exponent lies above that range, or whose exponent lies below its
    [Etiny], cannot be held exactly. *)
Definition MAX_EMAX : Z := 999999999999999999.
Definition MAX_ETINY : Z := - MAX_EMAX - (MAX_EMAX - 1).

Definition constructible (c e : Z) : bool :=
  (MAX_ETINY <=? e) && (e + ndigits c - 1 <=? MAX_EMAX).

(** [Decimal(s)]: exact, whatever the precision of the current context; a
    string that is no number, or a number that cannot be held exactly,
    raises InvalidOperation (ConversionSyntax is trapped with it). *)
Definition of_string (s : string) : result decimal :=
  let '(neg, body) := parse_sign (clean (list_ascii_of_string s)) in
  match parse_number body with
  | Some (c, e) =>
      if constructible c e then Ok (Fin neg c e) else Raise InvalidOperation
  | None =>
      if parse_inf body then Ok (Inf neg)
      else match parse_nan body with
           | Some (signal, diag) => Ok (NaN neg signal diag)
           | None => Raise InvalidOperation
           end
  end.

(** [d == n] for a Decimal and an [int]: exact comparison of the values. *)
Definition eq_int (d : decimal) (n : Z) : bool :=
  match d with
  | Fin s c e =>
      (if s then - c else c) * 10 ^ Z.max e 0 =? n * 10 ^ Z.max (- e) 0
  | _ => false
  end.

(** [d == d.to_integral_value()]: the value is a whole number. *)
Definition is_integral (d : decimal) : bool :=
  match d with
  | Fin s c e => (0 <=? e) || (c mod 10 ^ (- e) =? 0)
  | _ => false
  end.

End PyDecimal.

Import PyDecimal.

(** ** Python values and JSON documents *)

Local Open Scope string_scope.
Local Open Scope list_scope.
Local Open Scope Z_scope.

(** The objects [json.loads] builds.  [VFloat lit] is the binary float nearest
    to the number written [lit]; its arithmetic is not modelled. *)
Inductive value : Type :=
| VNone
| VBool (b : bool)
| VInt (n : Z)
| VFloat (lit : string)
| VDec (d : decimal)
| VStr (s : string)
| VList (l : list value)
| VDict (m : list (string * value)).

(** A JSON document as it arrives.  [JInt] is a number written without
    fraction and exponent, [JReal lit] one written with either, kept as text. *)
Inductive json : Type :=
| JNull
| JBool (b : bool)
| JInt (n : Z)
| JReal (lit : string)
| JStr (s : string)
| JArr (l : list json)
| JObj (m : list (string * json)).

Fixpoint dict_get {A : Type} (k : string) (m : list (string * A)) : option A :=
  match m with
  | [] => None
  | (k', v) :: m' => if String.eqb k k' then Some v else dict_get k m'
  end.

(** [d[k] = v]: a present key keeps its place, a new one goes last. *)
Fixpoint dict_set {A : Type} (k : string) (v : A) (m : list (string * A))
  : list (string * A) :=
  match m with
  | [] => [(k, v)]
  | (k', v') :: m' =>
      if String.eqb k k' then (k, v) :: m' else (k', v') :: dict_set k v m'
  end.

(** [json.loads(text)], and with [decimal = true]
    [json.loads(text, parse_float=Decimal)]. *)
Fixpoint loads (decimal : bool) (j : json) : result value :=
  match j with
  | JNull => Ok VNone
  | JBool b => Ok (VBool b)
  | JInt n => Ok (VInt n)
  | JReal lit =>
      if decimal then d <- of_string lit ;; Ok (VDec d) else Ok (VFloat lit)
  | JStr s => Ok (VStr s)
  | JArr l =>
      vs <- (fix go (l : list json) : result (list value) :=
               match l with
               | [] => Ok []
               | x :: l' => y <- loads decimal x ;; ys <- go l' ;; Ok (y :: ys)
               end) l ;;
      Ok (VList vs)
  | JObj m =>
      d <- (fix go (m : list (string * json)) (acc : list (string * value))
              : result (list (string * value)) :=
              match m with
              | [] => Ok acc
              | (k, x) :: m' => y <- loads decimal x ;; go m' (dict_set k y acc)
              end) m [] ;;
      Ok (VDict d)
  end.

(** [v[k]] for a string key. *)
Definition getitem_key (v : value) (k : string) : result value :=
  match v with
  | VDict m =>
      match dict_get k m with
      | Some x => Ok x
      | None => Raise KeyError
      end
  | _ => Raise TypeError
  end.

(** [l[i]] on a list: a negative index counts from the end. *)
Definition list_index {A : Type} (l : list A) (i : Z) : option A :=
  let n := Z.of_nat (List.length l) in
  let j := if i <? 0 then i + n else i in
  if (0 <=? j) && (j <? n) then nth_error l (Z.to_nat j) else None.

(** [v[i]] for an integer index. *)
Definition getitem_index (v : value) (i : Z) : result value :=
  match v with
  | VList l =>
      match list_index l i with
      | Some x => Ok x
      | None => Raise IndexError
      end
  | VStr s =>
      match list_index (list_ascii_of_string s) i with
      | Some c => Ok (VStr (String c EmptyString))
      | None => Raise IndexError
      end
  | VDict _ => Raise KeyError
  | _ => Raise TypeError
  end.

(** [k in v] for a string [k]. *)
Definition contains_key (k : string) (v : value) : result bool :=
  match v with
  | VDict m =>
      Ok (match dict_get k m with Some _ => true | None => false end)
  | VList l =>
      Ok (existsb (fun x => match x with
                            | VStr s => String.eqb s k
                            | _ => false
                            end) l)
  | VStr s => Ok (str_contains k s)
  | _ => Raise TypeError
  end.

Definition is_not_None (v : value) : bool :=
  match v with
  | VNone => false
  | _ => true
  end.

(** The items [for x in v] visits. *)
Definition py_iter (v : value) : result (list value) :=
  match v with
  | VList l => Ok l
  | VDict m => Ok (map (fun kv => VStr (fst kv)) m)
  | VStr s =>
      Ok (map (fun c => VStr (String c EmptyString)) (list_ascii_of_string s))
  | _ => Raise TypeError
  end.

Definition int_of_bool (b : bool) : Z := if b then 1 else 0.

(** [a + b] on the objects a plain [json.loads] builds. *)
Definition py_add (a b : value) : result value :=
  match a, b with
  | VInt x, VInt y => Ok (VInt (x + y))
  | VInt x, VBool y => Ok (VInt (x + int_of_bool y))
  | VBool x, VInt y => Ok (VInt (int_of_bool x + y))
  | VBool x, VBool y => Ok (VInt (int_of_bool x + int_of_bool y))
  | VStr x, VStr y => Ok (VStr (x ++ y)%string)
  | VList x, VList y => Ok (VList (x ++ y))
  | VFloat _, (VInt _ | VBool _ | VFloat _) => Raise NotModelled
  | (VInt _ | VBool _), VFloat _ => Raise NotModelled
  | VDec _, _ => Raise NotModelled
  | _, VDec _ => Raise NotModelled
  | _, _ => Raise TypeError
  end.

(** [Decimal(v)] *)
Definition Decimal (v : value) : result decimal :=
  match v with
  | VStr s => of_string s
  | VInt n => Ok (of_int n)
  | VBool b => Ok (of_int (int_of_bool b))
  | VDec d => Ok d
  | VFloat _ => Raise NotModelled
  | VList _ => Raise NotModelled
  | VNone => Raise TypeError
  | VDict _ => Raise TypeError
  end.

(** ** [str.format] with one positional string argument *)

Inductive numbering : Type := Unset | Automatic | Manual.

Inductive fstate : Type :=
| FText    (* in literal text *)
| FOpen    (* after an opening brace *)
| FZero    (* after an opening brace and the digit 0 *)
| FClose.  (* after a closing brace in literal text *)

(** The replacement fields modelled are the two the templates can hold, the
    empty one and the one numbered 0, besides doubled braces. *)
Fixpoint format_from (st : fstate) (num : numbering) (arg : string)
  (l : list ascii) : result string :=
  match l with
  | [] =>
      match st with
      | FText => Ok ""
      | _ => Raise ValueError
      end
  | c :: r =>
      match st with
      | FText =>
          if Ascii.eqb c "{" then format_from FOpen num arg r
          else if Ascii.eqb c "}" then format_from FClose num arg r
          else s <- format_from FText num arg r ;; Ok (String c s)
      | FClose =>
          if Ascii.eqb c "}"
          then s <- format_from FText num arg r ;; Ok (String "}" s)
          else Raise ValueError
      | FOpen =>
          if Ascii.eqb c "{"
          then s <- format_from FText num arg r ;; Ok (String "{" s)
          else if Ascii.eqb c "}" then
            match num with
            | Unset => s <- format_from FText Automatic arg r ;; Ok (arg ++ s)%string
            | Automatic => Raise IndexError
            | Manual => Raise ValueError
            end
          else if Ascii.eqb c "0" then format_from FZero num arg r
          else Raise NotModelled
      | FZero =>
          if Ascii.eqb c "}" then
            match num with
            | Automatic => Raise ValueError
            | _ => s <- format_from FText Manual arg r ;; Ok (arg ++ s)%string
            end
          else Raise NotModelled
      end
  end.

(** [template.format(arg)] *)
Definition format (template arg : string) : result string :=
  format_from FText Unset arg (list_ascii_of_string template).

(** ** The [requests] response *)

(** [body] is the decoded JSON text of the response, [None] when the text is
    no JSON document. *)
Record response : Type := Response { status_code : Z; body : option json }.

(** [r.raise_for_status()] *)
Definition raise_for_status (r : response) : result unit :=
  if (400 <=? status_code r) && (status_code r <? 600)
  then Raise HTTPError
  else Ok tt.

(** [r.json()], and with [decimal = true] [r.json(parse_float=Decimal)]. *)
Definition json_of (decimal : bool) (r : response) : result value :=
  match body r with
  | Some j => loads decimal j
  | None => Raise JSONDecodeError
  end.

(** ** Domain objects *)

(** Modelled from the spec: the class [TxPart] of [bitcash.network.transaction]
    is not part of the sources at hand.  One side of a transaction: an
    optional address, an amount and the script in disassembled form. *)
Record TxPart : Type := mkTxPart {
  address : value;
  amount : value;
  asm : value
}.

(** Modelled from the spec: the class [Transaction] of
    [bitcash.network.transaction] is not part of the sources at hand.  It is
    created without parts; [add_input] and [add_output] append one part to the
    ordered sequence of inputs or outputs. *)
Record Transaction : Type := mkTransaction {
  txid : value;
  block : value;
  amount_in : value;
  amount_out : value;
  amount_fee : value;
  inputs : list TxPart;
  outputs : list TxPart
}.

Definition new_Transaction (txid block amount_in amount_out amount_fee : value)
  : Transaction :=
  mkTransaction txid block amount_in amount_out amount_fee [] [].

Definition add_input (tx : Transaction) (part : TxPart) : Transaction :=
  mkTransaction (txid tx) (block tx) (amount_in tx) (amount_out tx)
    (amount_fee tx) (inputs tx ++ [part]) (outputs tx).

Definition add_output (tx : Transaction) (part : TxPart) : Transaction :=
  mkTransaction (txid tx) (block tx) (amount_in tx) (amount_out tx)
    (amount_fee tx) (inputs tx) (outputs tx ++ [part]).

(** Modelled from the spec: the class [Unspent] of [bitcash.network.meta] is
    not part of the sources at hand.  An output reference: amount in the
    smallest unit, confirmation count, locking script, id of the source
    transaction, output index. *)
Record Unspent : Type := mkUnspent {
  u_amount : Z;
  u_confirmations : value;
  u_script : value;
  u_txid : value;
  u_txindex : value
}.

(** ** The client *)

Definition DEFAULT_TIMEOUT : Z := 30.
Definition BCH_TO_SAT_MULTIPLIER : Z := 100000000.

Record BitcoinDotComAPI : Type := mkAPI { network_endpoint : string }.

Definition assert_ (b : bool) : result unit :=
  if b then Ok tt else Raise AssertionError.

Definition isinstance_str (v : value) : bool :=
  match v with
  | VStr _ => true
  | _ => false
  end.

(** [BitcoinDotComAPI.__init__]: the three assertions, any failure of which is
    turned into [InvalidEndpointURLProvided]; slicing anything but a string or
    a list is a type error. *)
Definition init (endpoint : value) : result BitcoinDotComAPI :=
  let checks :=
    _ <- assert_ (isinstance_str endpoint) ;;
    match endpoint with
    | VStr s =>
        _ <- assert_ (String.eqb (slice_to 4 s) "http") ;;
        _ <- assert_ (String.eqb (slice_last 4 s) "/v2/") ;;
        Ok s
    | VList _ => Raise AssertionError
    | _ => Raise TypeError
    end in
  match checks with
  | Ok s => Ok (mkAPI s)
  | Raise AssertionError => Raise InvalidEndpointURLProvided
  | Raise e => Raise e
  end.

Definition DEFAULT_ENDPOINTS : list (string * string) :=
  [ ("mainnet", "https://rest.bch.actorforth.org/v2/");
    ("testnet", "https://trest.bitcoin.com/v2/");
    ("regtest", "http://localhost:12500/v2/") ].

Definition PATHS : list (string * string) :=
  [ ("unspent", "address/utxo/{}");
    ("address", "address/details/{}");
    ("raw-tx", "rawtransactions/sendRawTransaction/{}");
    ("tx-details", "transaction/details/{}") ].

Definition get_default_endpoint (network : string) : result string :=
  match dict_get network DEFAULT_ENDPOINTS with
  | Some url => Ok url
  | None => Raise KeyError
  end.

Definition make_endpoint_url (self : BitcoinDotComAPI) (path : string)
  : result string :=
  match dict_get path PATHS with
  | Some template => Ok (network_endpoint self ++ template)%string
  | None => Raise KeyError
  end.

(** The expression [(Decimal(v) * BCH_TO_SAT_MULTIPLIER).normalize()], which
    the client writes out at each of its five uses. *)
Definition to_satoshi (v : value) : result value :=
  d <- Decimal v ;;
  p <- mul d (of_int BCH_TO_SAT_MULTIPLIER) ;;
  n <- normalize p ;;
  Ok (VDec n).

(** The body of [for txin in response["vin"]]. *)
Definition input_part (txin : value) : result TxPart :=
  a <- getitem_key txin "cashAddress" ;;
  v <- getitem_key txin "value" ;;
  sig <- getitem_key txin "scriptSig" ;;
  s <- getitem_key sig "asm" ;;
  Ok (mkTxPart a v s).

(** The body of [for txout in response["vout"]]. *)
Definition output_part (txout : value) : result TxPart :=
  spk <- getitem_key txout "scriptPubKey" ;;
  present <- contains_key "cashAddrs" spk ;;
  addr <-
    (if present then
       spk1 <- getitem_key txout "scriptPubKey" ;;
       ca <- getitem_key spk1 "cashAddrs" ;;
       if is_not_None ca then
         spk2 <- getitem_key txout "scriptPubKey" ;;
         ca2 <- getitem_key spk2 "cashAddrs" ;;
         getitem_index ca2 0
       else Ok VNone
     else Ok VNone) ;;
  v <- getitem_key txout "value" ;;
  amt <- to_satoshi v ;;
  spk3 <- getitem_key txout "scriptPubKey" ;;
  s <- getitem_key spk3 "asm" ;;
  Ok (mkTxPart addr amt s).

Section Client.

(** [requests.get(url, timeout=...)]: the answer of the network, a response
    or a transport failure, to the one request an operation sends.  No
    operation sends a second request, so a function of the URL and the
    timeout says all a single call can see; it does not say that the network
    answers alike twice, and what relates two calls takes a network for
    each of them. *)
Variable http_get : string -> option Z -> result response.

(** Modelled from the spec: [currency_to_satoshi] of [bitcash.network] is not
    part of the sources at hand.  It converts an amount of a currency to a
    whole number of the smallest unit, or raises; which number is left open. *)
Variable currency_to_satoshi : value -> string -> result Z.

Definition get_balance (self : BitcoinDotComAPI) (address : string)
  : result value :=
  template <- make_endpoint_url self "address" ;;
  api_url <- format template address ;;
  r <- http_get api_url (Some DEFAULT_TIMEOUT) ;;
  _ <- raise_for_status r ;;
  data <- json_of false r ;;
  confirmed <- getitem_key data "balanceSat" ;;
  unconfirmed <- getitem_key data "unconfirmedBalanceSat" ;;
  py_add confirmed unconfirmed.

Definition get_transactions (self : BitcoinDotComAPI) (address : string)
  : result value :=
  template <- make_endpoint_url self "address" ;;
  api_url <- format template address ;;
  r <- http_get api_url (Some DEFAULT_TIMEOUT) ;;
  _ <- raise_for_status r ;;
  data <- json_of false r ;;
  getitem_key data "transactions".

Definition get_transaction (self : BitcoinDotComAPI) (txid : string)
  : result Transaction :=
  template <- make_endpoint_url self "tx-details" ;;
  api_url <- format template txid ;;
  r <- http_get api_url (Some DEFAULT_TIMEOUT) ;;
  _ <- raise_for_status r ;;
  response <- json_of true r ;;
  id <- getitem_key response "txid" ;;
  height <- getitem_key response "blockheight" ;;
  value_in <- getitem_key response "valueIn" ;;
  total_in <- to_satoshi value_in ;;
  value_out <- getitem_key response "valueOut" ;;
  total_out <- to_satoshi value_out ;;
  fees <- getitem_key response "fees" ;;
  fee <- to_satoshi fees ;;
  let tx := new_Transaction id height total_in total_out fee in
  vin <- getitem_key response "vin" ;;
  txins <- py_iter vin ;;
  tx <- fold_left (fun acc txin =>
                     tx <- acc ;;
                     part <- input_part txin ;;
                     Ok (add_input tx part)) txins (Ok tx) ;;
  vout <- getitem_key response "vout" ;;
  txouts <- py_iter vout ;;
  fold_left (fun acc txout =>
               tx <- acc ;;
               part <- output_part txout ;;
               Ok (add_output tx part)) txouts (Ok tx).

Definition get_tx_amount (self : BitcoinDotComAPI) (txid : string) (txindex : Z)
  : result value :=
  template <- make_endpoint_url self "tx-details" ;;
  api_url <- format template txid ;;
  r <- http_get api_url (Some DEFAULT_TIMEOUT) ;;
  _ <- raise_for_status r ;;
  response <- json_of true r ;;
  vout <- getitem_key response "vout" ;;
  txout <- getitem_index vout txindex ;;
  v <- getitem_key txout "value" ;;
  to_satoshi v.

Definition get_unspent (self : BitcoinDotComAPI) (address : string)
  : result (list Unspent) :=
  template <- make_endpoint_url self "unspent" ;;
  api_url <- format template address ;;
  r <- http_get api_url (Some DEFAULT_TIMEOUT) ;;
  _ <- raise_for_status r ;;
  data <- json_of false r ;;
  utxos <- getitem_key data "utxos" ;;
  txs <- py_iter utxos ;;
  mapM (fun tx =>
          a <- getitem_key tx "amount" ;;
          sat <- currency_to_satoshi a "bch" ;;
          conf <- getitem_key tx "confirmations" ;;
          data' <- json_of false r ;;
          script <- getitem_key data' "scriptPubKey" ;;
          id <- getitem_key tx "txid" ;;
          index <- getitem_key tx "vout" ;;
          Ok (mkUnspent sat conf script id index)) txs.

Definition get_raw_transaction (self : BitcoinDotComAPI) (txid : string)
  : result value :=
  template <- make_endpoint_url self "tx-details" ;;
  api_url <- format template txid ;;
  r <- http_get api_url (Some DEFAULT_TIMEOUT) ;;
  _ <- raise_for_status r ;;
  json_of true r.

Definition broadcast_tx (self : BitcoinDotComAPI) (tx_hex : string)
  : result bool :=
  template <- make_endpoint_url self "raw-tx" ;;
  api_url <- format template tx_hex ;;
  r <- http_get api_url None ;;
  Ok (status_code r =? 200).

End Client.

(** ** Vocabulary of the properties *)

Definition starts_with (p s : string) : Prop := exists r, s = (p ++ r)%string.
Definition ends_with (q s : string) : Prop := exists r, s = (r ++ q)%string.

(** The URL a method requests: the template of [path] on the endpoint, with
    [arg] in its slot. *)
Definition request_url (self : BitcoinDotComAPI) (path arg : string)
  : result string :=
  template <- make_endpoint_url self path ;;
  format template arg.

(** The response a method works on: the answer to its GET request, once
    [raise_for_status] has let it through. *)
Definition fetch_response (http_get : string -> option Z -> result response)
  (self : BitcoinDotComAPI) (path arg : string) : result response :=
  url <- request_url self path arg ;;
  r <- http_get url (Some DEFAULT_TIMEOUT) ;;
  _ <- raise_for_status r ;;
  Ok r.

Definition signed (neg : bool) (c : Z) : Z := if neg then - c else c.

(** The text of a decimal numeral: a minus sign when [neg], the digits [ip]
    of the integer part and, when there are any, a point and the digits [fp]
    of the fraction. *)
Definition numeral (neg : bool) (ip fp : list ascii) : string :=
  string_of_list_ascii
    ((if neg then ["-"%char] else [])
     ++ ip
     ++ match fp with
        | [] => []
        | _ => "."%char :: fp
        end).

(** The characters of a numeral: they are no white space and no underscore. *)
Definition plain (c : ascii) : bool :=
  negb (is_space c) && negb (Ascii.eqb c "_").

(** The conversion of a numeral is exact when it gives a Decimal equal to
    the whole number its digits stand for, moved by eight places. *)
Definition converts_exactly (neg : bool) (ip fp : list ascii) : Prop :=
  exists d,
    to_satoshi (VStr (numeral neg ip fp)) = Ok (VDec d)
    /\ eq_int d (signed neg (digits_value (ip ++ fp))
                 * 10 ^ (8 - Z.of_nat (List.length fp))) = true.

(** The conversion of a numeral rounds to 28 significant digits, half to
    even, when its result, counted in units of the numeral's last digit, is
    a multiple [q * 10^k] of the power of ten that leaves the exact product
    28 digits, the nearest such multiple, and of two equally near ones the
    one with [q] even. *)
Definition converts_rounded (neg : bool) (ip fp : list ascii) : Prop :=
  let exact := digits_value (ip ++ fp) * 10 ^ 8 in
  exists c' e' k q,
    to_satoshi (VStr (numeral neg ip fp)) = Ok (VDec (Fin neg c' e'))
    /\ - Z.of_nat (List.length fp) <= e'
    /\ 0 < k
    /\ 10 ^ (27 + k) <= exact < 10 ^ (28 + k)
    /\ c' * 10 ^ (e' + Z.of_nat (List.length fp)) = q * 10 ^ k
    /\ 2 * Z.abs (exact - q * 10 ^ k) <= 10 ^ k
    /\ (2 * Z.abs (exact - q * 10 ^ k) = 10 ^ k -> Z.even q = true).





(** ** Sample responses *)

(** A network in which every request is answered by [r]. *)
Definition answering (r : response) : string -> option Z -> result response :=
  fun _ _ => Ok r.

Definition regtest : BitcoinDotComAPI := mkAPI "http://localhost:12500/v2/".

(** A transaction with two inputs and three outputs: one with an address,
    one whose [cashAddrs] is [null], one without [cashAddrs]. *)
Definition tx_details : json :=
  JObj
    [ ("txid", JStr "4a5e");
      ("blockheight", JInt 600000);
      ("valueIn", JReal "1.5");
      ("valueOut", JReal "1.4999");
      ("fees", JReal "0.0001");
      ("vin",
       JArr
         [ JObj [ ("cashAddress", JStr "bchtest:qa");
                  ("value", JInt 100000000);
                  ("scriptSig", JObj [("asm", JStr "3045 02")]) ];
           JObj [ ("cashAddress", JStr "bchtest:qb");
                  ("value", JInt 50000000);
                  ("scriptSig", JObj [("asm", JStr "3044 03")]) ] ]);
      ("vout",
       JArr
         [ JObj [ ("value", JStr "1.23456789");
                  ("scriptPubKey",
                   JObj [ ("asm", JStr "OP_DUP OP_HASH160");
                          ("cashAddrs", JArr [JStr "bchtest:qc"]) ]) ];
           JObj [ ("value", JStr "0.26533211");
                  ("scriptPubKey",
                   JObj [ ("asm", JStr "OP_RETURN"); ("cashAddrs", JNull) ]) ];
           JObj [ ("value", JStr "0.00000000");
                  ("scriptPubKey", JObj [("asm", JStr "OP_RETURN 6d02")]) ] ]) ].

Definition tx_details_response : response := Response 200 (Some tx_details).

Definition tx_details_doc : value :=
  Eval vm_compute in
    match loads true tx_details with
    | Ok v => v
    | Raise _ => VNone
    end.

Definition tx_details_vin : list value :=
  Eval vm_compute in
    match getitem_key tx_details_doc "vin" with
    | Ok (VList l) => l
    | _ => []
    end.

Definition tx_details_vout : list value :=
  Eval vm_compute in
    match getitem_key tx_details_doc "vout" with
    | Ok (VList l) => l
    | _ => []
    end.

Definition tx_details_tx : Transaction :=
  Eval vm_compute in
    match get_transaction (answering tx_details_response) regtest "4a5e" with
    | Ok tx => tx
    | Raise _ => new_Transaction VNone VNone VNone VNone VNone
    end.






(** The unspent outputs of an address; each entry has a [scriptPubKey] of
    its own, different from that of the document. *)
Definition utxo_listing : json :=
  JObj
    [ ("utxos",
       JArr
         [ JObj [ ("txid", JStr "aa11"); ("vout", JInt 0); ("amount", JInt 2);
                  ("confirmations", JInt 3); ("scriptPubKey", JStr "51") ];
           JObj [ ("txid", JStr "bb22"); ("vout", JInt 1); ("amount", JInt 1);
                  ("confirmations", JInt 0); ("scriptPubKey", JStr "52") ] ]);
      ("scriptPubKey", JStr "76a91488ac");
      ("cashAddress", JStr "bchtest:qa") ].

Definition utxo_response : response := Response 200 (Some utxo_listing).

(** A conversion that knows whole coins only. *)
Definition whole_coins (a : value) (currency : string) : result Z :=
  match a with
  | VInt n => Ok (n * BCH_TO_SAT_MULTIPLIER)
  | _ => Raise NotModelled
  end.

Definition utxo_doc : value :=
  Eval vm_compute in
    match loads false utxo_listing with
    | Ok v => v
    | Raise _ => VNone
    end.

Definition utxo_entries : list value :=
  Eval vm_compute in
    match getitem_key utxo_doc "utxos" with
    | Ok (VList l) => l
    | _ => []
    end.

Definition utxo_records : list Unspent :=
  Eval vm_compute in
    match get_unspent (answering utxo_response) whole_coins regtest "bchtest:qa" with
    | Ok us => us
    | Raise _ => []
    end.

(** The balance of an address. *)
Definition address_details : json :=
  JObj [ ("balanceSat", JInt 500); ("unconfirmedBalanceSat", JInt (-200));
         ("transactions", JArr [JStr "4a5e"]) ].


(** The transaction [tx_details] once more, answered with another status. *)
Definition tx_details_again : response := Response 203 (Some tx_details).

(** ** Vocabulary of the further properties *)

(** The request a method sends for [path] and [arg] with the given timeout
    is answered by [a]: a response, or the exception of a transport failure. *)
Definition answered (http_get : string -> option Z -> result response)
  (self : BitcoinDotComAPI) (path arg : string) (timeout : option Z)
  (a : result response) : Prop :=
  exists url, request_url self path arg = Ok url /\ http_get url timeout = a.

(** The status codes [raise_for_status] turns into an exception. *)
Definition error_status (r : response) : Prop :=
  400 <= status_code r < 600.

(** No character of [s] is a brace. *)
Definition brace_free (s : string) : bool :=
  forallb (fun c => negb (Ascii.eqb c "{") && negb (Ascii.eqb c "}"))
          (list_ascii_of_string s).

(** * Properties *)

(** ** Checks of the runtime model *)

Example dec_parse_1 : of_string "0.00000001" = Ok (Fin false 1 (-8)).
Proof. reflexivity. Qed.
Example dec_parse_2 : of_string " -1_000.50E+2 " = Ok (Fin true 100050 0).
Proof. reflexivity. Qed.

Example dec_parse_3 :
  of_string "1E1000000000000000000" = Raise InvalidOperation
  /\ of_string "1E999999999999999999" = Ok (Fin false 1 999999999999999999)
  /\ of_string "1E-1999999999999999998" = Raise InvalidOperation.
Proof. repeat split; vm_compute; reflexivity. Qed.

Example dec_round_1 :
  to_satoshi (VStr "10000000000000000000000000015")
  = Ok (VDec (Fin false 1000000000000000000000000002 9))
  /\ to_satoshi (VStr "10000000000000000000000000025")
     = Ok (VDec (Fin false 1000000000000000000000000002 9))
  /\ to_satoshi (VStr "10000000000000000000000000026")
     = Ok (VDec (Fin false 1000000000000000000000000003 9)).
Proof. repeat split; vm_compute; reflexivity. Qed.

Example dec_mul_1 :
  (p <- mul (Fin false 123456789 (-8)) (of_int 100000000) ;; normalize p)
  = Ok (Fin false 123456789 0).
Proof. vm_compute. reflexivity. Qed.
Example dec_mul_2 :
  (p <- mul (Fin false 10 (-1)) (of_int 100000000) ;; normalize p)
  = Ok (Fin false 1 8).
Proof. vm_compute. reflexivity. Qed.
Example dec_mul_3 :
  (p <- mul (of_int 10000000000000000000000000001) (of_int 100000000) ;; normalize p)
  = Ok (Fin false 1 36).
Proof. vm_compute. reflexivity. Qed.

Example format_1 : format "a/{}/b{{}}" "xy" = Ok "a/xy/b{}".
Proof. reflexivity. Qed.
Example format_2 : format "{}{}" "xy" = Raise IndexError.
Proof. reflexivity. Qed.

(** ** Construction *)

Lemma str_take_drop (n : nat) (s : string) :
  s = (str_take n s ++ str_drop n s)%string.
Proof.
  revert s. induction n as [|n IH]; intros [|c s]; simpl; try reflexivity.
  now rewrite <- IH.
Qed.

Lemma str_drop_app (r q : string) :
  str_drop (String.length r) (r ++ q) = q.
Proof. induction r as [|c r IH]; simpl; [now destruct q | exact IH]. Qed.

Lemma str_length_app (r q : string) :
  String.length (r ++ q) = (String.length r + String.length q)%nat.
Proof. induction r as [|c r IH]; simpl; [reflexivity | now rewrite IH]. Qed.

Lemma slice_to_http (s : string) :
  String.eqb (slice_to 4 s) "http" = true <-> starts_with "http" s.
Proof.
  split.
  - intro H. apply String.eqb_eq in H.
    destruct s as [|a [|b [|c [|d r]]]]; simpl in H; try discriminate.
    injection H as -> -> -> ->. now exists r.
  - intros [r ->]. reflexivity.
Qed.

Lemma slice_last_v2 (s : string) :
  String.eqb (slice_last 4 s) "/v2/" = true <-> ends_with "/v2/" s.
Proof.
  unfold slice_last. split.
  - intro H. apply String.eqb_eq in H.
    exists (str_take (String.length s - 4) s).
    rewrite <- H. apply str_take_drop.
  - intros [r ->]. rewrite str_length_app. simpl String.length.
    replace (String.length r + 4 - 4)%nat with (String.length r) by lia.
    rewrite str_drop_app. reflexivity.
Qed.

Lemma init_str (s : string) :
  init (VStr s) =
  if String.eqb (slice_to 4 s) "http" && String.eqb (slice_last 4 s) "/v2/"
  then Ok (mkAPI s) else Raise InvalidEndpointURLProvided.
Proof.
  unfold init. cbn [isinstance_str assert_ bind].
  destruct (String.eqb (slice_to 4 s) "http"); cbn [assert_ bind andb];
    [|reflexivity].
  destruct (String.eqb (slice_last 4 s) "/v2/"); reflexivity.
Qed.

(** C5: for a string [s], construction succeeds, storing [s] unchanged, if
    and only if [s] starts with "http" and ends with "/v2/"; for every other
    string it fails with [InvalidEndpointURLProvided]. *)
Theorem init_succeeds_iff_valid_url (s : string) :
  (init (VStr s) = Ok (mkAPI s)
   <-> starts_with "http" s /\ ends_with "/v2/" s)
  /\ (init (VStr s) = Raise InvalidEndpointURLProvided
      <-> ~ (starts_with "http" s /\ ends_with "/v2/" s)).
Proof.
  rewrite init_str, <- slice_to_http, <- slice_last_v2.
  destruct (String.eqb (slice_to 4 s) "http"),
           (String.eqb (slice_last 4 s) "/v2/"); cbn [andb];
    intuition congruence.
Qed.

(** C10: for every endpoint argument that is not a string, construction
    fails with [InvalidEndpointURLProvided]. *)
Theorem init_rejects_non_string (v : value) :
  isinstance_str v = false ->
  init v = Raise InvalidEndpointURLProvided.
Proof.
  intro H. unfold init. rewrite H. reflexivity.
Qed.

Lemma init_rejects_non_string_witness :
  init VNone = Raise InvalidEndpointURLProvided
  /\ init (VInt 8332) = Raise InvalidEndpointURLProvided.
Proof.
  split; apply init_rejects_non_string; reflexivity.
Defined.

(** ** URLs *)

(** C9: [make_endpoint_url] is a function of the stored endpoint and the
    path key that returns the endpoint followed by the key's template; a
    client built on "https://example.com/v2/" gives for the key "address",
    once "bchtest:xyz" is put in the slot,
    "https://example.com/v2/address/details/bchtest:xyz". *)
Theorem make_endpoint_url_is_concatenation :
  (forall self path template,
      In (path, template) PATHS ->
      make_endpoint_url self path
      = Ok (network_endpoint self ++ template)%string)
  /\ (forall self self' path,
         network_endpoint self = network_endpoint self' ->
         make_endpoint_url self path = make_endpoint_url self' path)
  /\ (api <- init (VStr "https://example.com/v2/") ;;
      url <- make_endpoint_url api "address" ;;
      format url "bchtest:xyz")
     = Ok "https://example.com/v2/address/details/bchtest:xyz".
Proof.
  split; [|split; [|reflexivity]].
  - intros self path template H. simpl in H.
    destruct H as [H|[H|[H|[H|[]]]]]; injection H as <- <-; reflexivity.
  - intros self self' path H. unfold make_endpoint_url. now rewrite H.
Qed.

Lemma make_endpoint_url_is_concatenation_witness :
  make_endpoint_url (mkAPI "http://localhost:12500/v2/") "unspent"
  = Ok "http://localhost:12500/v2/address/utxo/{}".
Proof.
  apply (proj1 make_endpoint_url_is_concatenation
           (mkAPI "http://localhost:12500/v2/") "unspent" "address/utxo/{}").
  simpl. left. reflexivity.
Defined.

(** ** Inversion of calls *)

Lemma bind_ok {A B : Type} (r : result A) (k : A -> result B) (b : B) :
  bind r k = Ok b -> exists a, r = Ok a /\ k a = Ok b.
Proof. destruct r as [a|e]; simpl; [eauto | discriminate]. Qed.

Ltac bind_inv H :=
  repeat match type of H with
         | bind ?r ?k = Ok _ =>
             let a := fresh "x" in
             let E := fresh "E" in
             apply bind_ok in H; destruct H as (a & E & H)
         end.

Lemma mapM_Forall2 {A B : Type} (f : A -> result B) (l : list A) (l' : list B) :
  mapM f l = Ok l' -> Forall2 (fun x y => f x = Ok y) l l'.
Proof.
  revert l'. induction l as [|x l IH]; intros l' H; simpl in H.
  - injection H as <-. constructor.
  - bind_inv H. injection H as <-. constructor; auto.
Qed.

Section ClientProperties.

Variable http_get : string -> option Z -> result response.
Variable currency_to_satoshi : value -> string -> result Z.

Lemma fetch_response_inv self path arg r :
  fetch_response http_get self path arg = Ok r ->
  exists template url,
    make_endpoint_url self path = Ok template
    /\ format template arg = Ok url
    /\ http_get url (Some DEFAULT_TIMEOUT) = Ok r
    /\ raise_for_status r = Ok tt.
Proof.
  unfold fetch_response, request_url. intro H. bind_inv H.
  injection H as <-. destruct x1. bind_inv E. eauto 8.
Qed.

(** ** Broadcasting *)

(** C2: whatever the transaction and the response to the request,
    [broadcast_tx] returns [true] if and only if the status code is 200 and
    [false] for every other status code; no status code makes it raise. *)
Theorem broadcast_tx_true_iff_status_200 self tx_hex url r :
  request_url self "raw-tx" tx_hex = Ok url ->
  http_get url None = Ok r ->
  broadcast_tx http_get self tx_hex = Ok (status_code r =? 200)
  /\ (broadcast_tx http_get self tx_hex = Ok true <-> status_code r = 200)
  /\ (status_code r <> 200 -> broadcast_tx http_get self tx_hex = Ok false).
Proof.
  intros Hurl Hget.
  assert (Hb : broadcast_tx http_get self tx_hex = Ok (status_code r =? 200)).
  { unfold broadcast_tx. unfold request_url in Hurl. bind_inv Hurl.
    rewrite E. simpl. rewrite Hurl. simpl. rewrite Hget. reflexivity. }
  rewrite Hb. split; [reflexivity|]. split.
  - split; intro H.
    + injection H as H. now apply Z.eqb_eq.
    + apply Z.eqb_eq in H. now rewrite H.
  - intro H. apply Z.eqb_neq in H. now rewrite H.
Qed.

(** ** Unspent outputs *)

(** C1: every record [get_unspent] returns carries as its script the value
    under the key [scriptPubKey] of the response document itself, one value
    for all of them, whatever the entries of [utxos] hold; the records
    answer the entries of [utxos] one for one. *)
Theorem get_unspent_script_is_top_level self address r data utxos us :
  fetch_response http_get self "unspent" address = Ok r ->
  json_of false r = Ok data ->
  getitem_key data "utxos" = Ok (VList utxos) ->
  get_unspent http_get currency_to_satoshi self address = Ok us ->
  Forall2 (fun tx u =>
             getitem_key data "scriptPubKey" = Ok (u_script u)
             /\ getitem_key tx "txid" = Ok (u_txid u)
             /\ getitem_key tx "vout" = Ok (u_txindex u))
          utxos us.
Proof.
  intros Hr Hdata Hutxos H.
  apply fetch_response_inv in Hr.
  destruct Hr as (template & url & Ht & Hu & Hget & Hst).
  unfold get_unspent in H.
  rewrite Ht in H; simpl in H. rewrite Hu in H; simpl in H.
  rewrite Hget in H; simpl in H. rewrite Hst in H; simpl in H.
  rewrite Hdata in H; simpl in H. rewrite Hutxos in H; simpl in H.
  apply mapM_Forall2 in H.
  eapply Forall2_impl; [|exact H].
  intros tx u Hu'. simpl in Hu'. bind_inv Hu'. injection Hu' as <-. simpl.
  auto.
Qed.

(** ** Transactions *)

Lemma fold_raise {A B : Type} (g : A -> B -> result A) (l : list B) (e : exn) :
  fold_left (fun acc x => t <- acc ;; g t x) l (Raise e) = Raise e.
Proof. induction l as [|x l IH]; simpl; auto. Qed.

(** A loop that builds a part from each item and adds it to the transaction
    succeeds only if every part could be built, and adds them in order. *)
Lemma fold_parts {A : Type} (f : A -> result TxPart)
  (add : Transaction -> TxPart -> Transaction) (l : list A)
  (tx0 tx : Transaction) :
  fold_left (fun acc x => t <- acc ;; part <- f x ;; Ok (add t part)) l (Ok tx0)
  = Ok tx ->
  exists parts,
    Forall2 (fun x part => f x = Ok part) l parts
    /\ tx = fold_left add parts tx0.
Proof.
  revert tx0. induction l as [|x l IH]; intros tx0 H; simpl in H.
  - injection H as <-. exists []. split; [constructor | reflexivity].
  - destruct (f x) as [part|e] eqn:Ef; simpl in H.
    + apply IH in H. destruct H as (parts & HF & ->).
      exists (part :: parts). split; [constructor; auto | reflexivity].
    + rewrite (fold_raise (fun t x => part <- f x ;; Ok (add t part))) in H.
      discriminate.
Qed.

Lemma fold_add_input (parts : list TxPart) (t : Transaction) :
  fold_left add_input parts t
  = mkTransaction (txid t) (block t) (amount_in t) (amount_out t)
      (amount_fee t) (inputs t ++ parts) (outputs t).
Proof.
  revert t. induction parts as [|p parts IH]; intro t; simpl.
  - rewrite app_nil_r. now destruct t.
  - rewrite IH. simpl. now rewrite <- app_assoc.
Qed.

Lemma fold_add_output (parts : list TxPart) (t : Transaction) :
  fold_left add_output parts t
  = mkTransaction (txid t) (block t) (amount_in t) (amount_out t)
      (amount_fee t) (inputs t) (outputs t ++ parts).
Proof.
  revert t. induction parts as [|p parts IH]; intro t; simpl.
  - rewrite app_nil_r. now destruct t.
  - rewrite IH. simpl. now rewrite <- app_assoc.
Qed.

(** What a successful [get_transaction] has read and built. *)
Lemma get_transaction_inv self id r doc tx :
  fetch_response http_get self "tx-details" id = Ok r ->
  json_of true r = Ok doc ->
  get_transaction http_get self id = Ok tx ->
  exists value_in value_out fees vin vout txins txouts,
    getitem_key doc "valueIn" = Ok value_in
    /\ to_satoshi value_in = Ok (amount_in tx)
    /\ getitem_key doc "valueOut" = Ok value_out
    /\ to_satoshi value_out = Ok (amount_out tx)
    /\ getitem_key doc "fees" = Ok fees
    /\ to_satoshi fees = Ok (amount_fee tx)
    /\ getitem_key doc "vin" = Ok vin
    /\ py_iter vin = Ok txins
    /\ Forall2 (fun txin part => input_part txin = Ok part) txins (inputs tx)
    /\ getitem_key doc "vout" = Ok vout
    /\ py_iter vout = Ok txouts
    /\ Forall2 (fun txout part => output_part txout = Ok part)
         txouts (outputs tx).
Proof.
  intros Hr Hdoc H.
  apply fetch_response_inv in Hr.
  destruct Hr as (template & url & Ht & Hu & Hget & Hst).
  unfold get_transaction in H.
  rewrite Ht in H; simpl in H. rewrite Hu in H; simpl in H.
  rewrite Hget in H; simpl in H. rewrite Hst in H; simpl in H.
  rewrite Hdoc in H; simpl in H.
  bind_inv H.
  apply fold_parts in E9. destruct E9 as (pin & Hin & ->).
  apply fold_parts in H. destruct H as (pout & Hout & ->).
  rewrite fold_add_output, fold_add_input. simpl.
  exists x1, x3, x5, x7, x10, x8, x11. repeat split; assumption.
Qed.

(** C7: the transaction [get_transaction] returns has one input part for
    each entry of [vin] and one output part for each entry of [vout], each
    built from the entry at the same position. *)
Theorem get_transaction_parts_in_order self id r doc vin vout tx :
  fetch_response http_get self "tx-details" id = Ok r ->
  json_of true r = Ok doc ->
  getitem_key doc "vin" = Ok (VList vin) ->
  getitem_key doc "vout" = Ok (VList vout) ->
  get_transaction http_get self id = Ok tx ->
  Forall2 (fun txin part => input_part txin = Ok part) vin (inputs tx)
  /\ Forall2 (fun txout part => output_part txout = Ok part) vout (outputs tx)
  /\ List.length (inputs tx) = List.length vin
  /\ List.length (outputs tx) = List.length vout.
Proof.
  intros Hr Hdoc Hvin Hvout H.
  destruct (get_transaction_inv _ _ _ _ _ Hr Hdoc H)
    as (vi & vo & fe & vin' & vout' & txins & txouts
        & _ & _ & _ & _ & _ & _ & Hvin' & Hins & HFin & Hvout' & Houts & HFout).
  rewrite Hvin in Hvin'. injection Hvin' as <-.
  rewrite Hvout in Hvout'. injection Hvout' as <-.
  simpl in Hins, Houts. injection Hins as <-. injection Houts as <-.
  repeat split; auto; symmetry; eapply Forall2_length; eauto.
Qed.

Lemma getitem_key_dict v k x :
  getitem_key v k = Ok x -> exists m, v = VDict m /\ dict_get k m = Some x.
Proof.
  destruct v; simpl; try discriminate.
  destruct (dict_get k m) eqn:E; [|discriminate].
  intro H. injection H as <-. eauto.
Qed.

(** The address [output_part] gives a part. *)
Lemma output_part_address txout part :
  output_part txout = Ok part ->
  exists spk,
    getitem_key txout "scriptPubKey" = Ok (VDict spk)
    /\ match dict_get "cashAddrs" spk with
       | None => address part = VNone
       | Some VNone => address part = VNone
       | Some ca => getitem_index ca 0 = Ok (address part)
       end.
Proof.
  unfold output_part. intro H.
  destruct (getitem_key txout "scriptPubKey") as [spk|] eqn:Espk;
    [|discriminate].
  cbn [bind] in H. bind_inv H. injection H as <-. simpl.
  apply getitem_key_dict in E3. destruct E3 as (m & -> & Hasm).
  exists m. split; [reflexivity|].
  simpl in E. injection E as <-.
  destruct (dict_get "cashAddrs" m) as [ca|] eqn:Eca.
  - cbn [bind getitem_key] in E0. rewrite Eca in E0. cbn [bind] in E0.
    destruct ca; simpl in E0; try (injection E0 as <-; reflexivity);
      try exact E0.
  - simpl in E0. injection E0 as <-. reflexivity.
Qed.

(** C8: in the transaction [get_transaction] returns, the address of the
    output part built from an entry of [vout] is [None] when the entry's
    [scriptPubKey] has no [cashAddrs] or has [null] there, and is
    [cashAddrs[0]] otherwise. *)
Theorem get_transaction_output_address self id r doc vout tx :
  fetch_response http_get self "tx-details" id = Ok r ->
  json_of true r = Ok doc ->
  getitem_key doc "vout" = Ok (VList vout) ->
  get_transaction http_get self id = Ok tx ->
  Forall2 (fun txout part =>
             exists spk,
               getitem_key txout "scriptPubKey" = Ok (VDict spk)
               /\ match dict_get "cashAddrs" spk with
                  | None => address part = VNone
                  | Some VNone => address part = VNone
                  | Some ca => getitem_index ca 0 = Ok (address part)
                  end)
          vout (outputs tx).
Proof.
  intros Hr Hdoc Hvout H.
  destruct (get_transaction_inv _ _ _ _ _ Hr Hdoc H)
    as (vi & vo & fe & vin' & vout' & txins & txouts
        & _ & _ & _ & _ & _ & _ & _ & _ & _ & Hvout' & Houts & HFout).
  rewrite Hvout in Hvout'. injection Hvout' as <-.
  simpl in Houts. injection Houts as <-.
  eapply Forall2_impl; [|exact HFout].
  intros txout part. apply output_part_address.
Qed.

(** ** The amount of one output *)

Lemma list_index_beyond {A : Type} (l : list A) (i : Z) :
  Z.of_nat (List.length l) <= i -> list_index l i = None.
Proof.
  intro H. unfold list_index.
  destruct (i <? 0) eqn:Ei; [apply Z.ltb_lt in Ei; lia|].
  destruct (i <? Z.of_nat (List.length l)) eqn:Ej;
    [apply Z.ltb_lt in Ej; lia|].
  now rewrite andb_false_r.
Qed.

Lemma list_index_within {A : Type} (l : list A) (i : Z) :
  0 <= i < Z.of_nat (List.length l) ->
  list_index l i = nth_error l (Z.to_nat i)
  /\ exists x, nth_error l (Z.to_nat i) = Some x.
Proof.
  intro H. unfold list_index.
  destruct (i <? 0) eqn:Ei; [apply Z.ltb_lt in Ei; lia|].
  destruct (0 <=? i) eqn:E0; [|apply Z.leb_gt in E0; lia].
  destruct (i <? Z.of_nat (List.length l)) eqn:Ej;
    [|apply Z.ltb_ge in Ej; lia].
  split; [reflexivity|].
  destruct (nth_error l (Z.to_nat i)) eqn:En; [eauto|].
  apply nth_error_None in En. lia.
Qed.

(** [get_tx_amount] on a fetched document whose [vout] is an array. *)
Lemma get_tx_amount_fetched self id r doc vout i :
  fetch_response http_get self "tx-details" id = Ok r ->
  json_of true r = Ok doc ->
  getitem_key doc "vout" = Ok (VList vout) ->
  get_tx_amount http_get self id i
  = match list_index vout i with
    | Some txout => v <- getitem_key txout "value" ;; to_satoshi v
    | None => Raise IndexError
    end.
Proof.
  intros Hr Hdoc Hvout.
  apply fetch_response_inv in Hr.
  destruct Hr as (template & url & Ht & Hu & Hget & Hst).
  unfold get_tx_amount.
  rewrite Ht; simpl. rewrite Hu; simpl. rewrite Hget; simpl.
  rewrite Hst; simpl. rewrite Hdoc; simpl. rewrite Hvout.
  cbn [bind getitem_index]. now destruct (list_index vout i).
Qed.

(** C6: on a response whose [vout] array has [n] entries, [get_tx_amount]
    raises [IndexError] for every index from [n] on, and for an index [i]
    below [n] it is the conversion of [vout[i]["value"]]. *)
Theorem get_tx_amount_index self id r doc vout :
  fetch_response http_get self "tx-details" id = Ok r ->
  json_of true r = Ok doc ->
  getitem_key doc "vout" = Ok (VList vout) ->
  forall i : Z,
    (Z.of_nat (List.length vout) <= i ->
     get_tx_amount http_get self id i = Raise IndexError)
    /\ (0 <= i < Z.of_nat (List.length vout) ->
        exists txout,
          nth_error vout (Z.to_nat i) = Some txout
          /\ get_tx_amount http_get self id i
             = (v <- getitem_key txout "value" ;; to_satoshi v)).
Proof.
  intros Hr Hdoc Hvout i.
  rewrite (get_tx_amount_fetched _ _ _ _ _ i Hr Hdoc Hvout).
  split; intro Hi.
  - now rewrite list_index_beyond.
  - destruct (list_index_within vout i Hi) as (-> & txout & Hn).
    exists txout. rewrite Hn. split; reflexivity.
Qed.

(** Below zero Python counts the index from the end of the array. *)
Lemma get_tx_amount_negative_index self id r doc vout i :
  fetch_response http_get self "tx-details" id = Ok r ->
  json_of true r = Ok doc ->
  getitem_key doc "vout" = Ok (VList vout) ->
  i < 0 ->
  get_tx_amount http_get self id i
  = if - Z.of_nat (List.length vout) <=? i
    then get_tx_amount http_get self id (i + Z.of_nat (List.length vout))
    else Raise IndexError.
Proof.
  intros Hr Hdoc Hvout Hi.
  rewrite !(get_tx_amount_fetched _ _ _ _ _ _ Hr Hdoc Hvout).
  unfold list_index.
  destruct (i <? 0) eqn:E1; [|apply Z.ltb_ge in E1; lia].
  destruct (- Z.of_nat (List.length vout) <=? i) eqn:E2.
  - apply Z.leb_le in E2.
    destruct (i + Z.of_nat (List.length vout) <? 0) eqn:E3;
      [apply Z.ltb_lt in E3; lia | reflexivity].
  - apply Z.leb_gt in E2.
    destruct (0 <=? i + Z.of_nat (List.length vout)) eqn:E3;
      [apply Z.leb_le in E3; lia | reflexivity].
Qed.

End ClientProperties.

(** ** Arithmetic of the conversion *)

Lemma pow10_pos (k : Z) : 0 <= k -> 0 < 10 ^ k.
Proof. intro H. apply Z.pow_pos_nonneg; lia. Qed.

Lemma pow10_split (a b : Z) : 0 <= a -> 0 <= b -> 10 ^ (a + b) = 10 ^ a * 10 ^ b.
Proof. intros. now apply Z.pow_add_r. Qed.

Lemma ndigits_from_spec (fuel : nat) (k c : Z) :
  1 <= k -> 10 ^ (k - 1) <= c -> c < 10 ^ (k + Z.of_nat fuel) ->
  10 ^ (ndigits_from fuel k c - 1) <= c < 10 ^ ndigits_from fuel k c
  /\ 1 <= ndigits_from fuel k c.
Proof.
  revert k. induction fuel as [|f IH]; intros k Hk Hlo Hhi; simpl.
  - rewrite Z.add_0_r in Hhi. lia.
  - destruct (c <? 10 ^ k) eqn:E.
    + apply Z.ltb_lt in E. lia.
    + apply Z.ltb_ge in E. apply IH; try lia.
      * now replace (k + 1 - 1) with k by lia.
      * now replace (k + 1 + Z.of_nat f) with (k + Z.of_nat (S f)) by lia.
Qed.

Lemma ndigits_spec (c : Z) :
  0 < c -> 10 ^ (ndigits c - 1) <= c < 10 ^ ndigits c /\ 1 <= ndigits c.
Proof.
  intro Hc. unfold ndigits. apply ndigits_from_spec; try lia.
  pose proof (Z.log2_nonneg c) as Hn.
  rewrite Z2Nat.id by assumption.
  destruct (Z.log2_spec c Hc) as [_ Hlt].
  replace (1 + Z.log2 c) with (Z.succ (Z.log2 c)) by lia.
  eapply Z.lt_le_trans; [exact Hlt|].
  apply Z.pow_le_mono_l. lia.
Qed.

Lemma ndigits_unique (c n : Z) :
  0 < c -> 10 ^ (n - 1) <= c < 10 ^ n -> ndigits c = n.
Proof.
  intros Hc [Hlo Hhi].
  destruct (ndigits_spec c Hc) as [[Mlo Mhi] M1].
  assert (Hn : 1 <= n).
  { destruct (Z.lt_ge_cases n 1) as [Hlt|]; [|assumption].
    destruct (Z.eq_dec n 0) as [->|]; [simpl in Hhi; lia|].
    rewrite Z.pow_neg_r in Hhi by lia. lia. }
  destruct (Z.lt_trichotomy (ndigits c) n) as [Hlt|[Heq|Hgt]]; [|assumption|].
  - assert (10 ^ ndigits c <= 10 ^ (n - 1)) by (apply Z.pow_le_mono_r; lia).
    lia.
  - assert (10 ^ n <= 10 ^ (ndigits c - 1)) by (apply Z.pow_le_mono_r; lia).
    lia.
Qed.

(** Stripping trailing zeros keeps the value. *)
Lemma strip_zeros_value (fuel : nat) (c e c' e' : Z) :
  0 < c -> strip_zeros fuel c e = (c', e') ->
  e <= e' /\ c' * 10 ^ (e' - e) = c /\ 0 < c'.
Proof.
  revert c e. induction fuel as [|f IH]; intros c e Hc H; simpl in H.
  - injection H as <- <-. rewrite Z.sub_diag. simpl. lia.
  - destruct ((c mod 10 =? 0) && (e <? Emax)) eqn:E.
    + apply andb_prop in E. destruct E as [Em _]. apply Z.eqb_eq in Em.
      assert (Hd : c = 10 * (c / 10)).
      { rewrite (Z.div_mod c 10) at 1 by lia. lia. }
      apply IH in H; [|lia]. destruct H as (Hle & Hv & Hpos).
      split; [lia|]. split; [|assumption].
      replace (e' - e) with (e' - (e + 1) + 1) by lia.
      rewrite pow10_split by lia. change (10 ^ 1) with 10. lia.
    + injection H as <- <-. rewrite Z.sub_diag. simpl. lia.
Qed.

(** A coefficient of at most 28 digits with its exponent in range is left as
    it is. *)
Lemma fix_small (s : bool) (c e : Z) :
  0 < c -> ndigits c <= prec -> Etiny <= e <= Etop ->
  fix_ (Fin s c e) = Ok (Fin s c e).
Proof.
  intros Hc Hn He. unfold fix_.
  destruct (c =? 0) eqn:E0; [apply Z.eqb_eq in E0; lia|].
  destruct (Etop <? ndigits c + e - prec) eqn:E1;
    [apply Z.ltb_lt in E1; lia|].
  destruct (e <? Z.max (ndigits c + e - prec) Etiny) eqn:E2;
    [apply Z.ltb_lt in E2; lia | reflexivity].
Qed.

(** A longer coefficient whose surplus digits are zeros loses just them. *)
Lemma fix_drops_zeros (s : bool) (c e k : Z) :
  0 < c -> 0 < k -> ndigits c = prec + k -> c mod 10 ^ k = 0 ->
  Etiny <= e + k <= Etop ->
  fix_ (Fin s c e) = Ok (Fin s (c / 10 ^ k) (e + k))
  /\ ndigits (c / 10 ^ k) = prec /\ 0 < c / 10 ^ k.
Proof.
  intros Hc Hk Hn Hm He.
  pose proof (pow10_pos k ltac:(lia)) as Hp.
  destruct (ndigits_spec c Hc) as [[Hlo Hhi] _].
  assert (Hq : c = c / 10 ^ k * 10 ^ k).
  { rewrite (Z.div_mod c (10 ^ k)) at 1 by lia. lia. }
  assert (Hq28 : 10 ^ (prec - 1) <= c / 10 ^ k < 10 ^ prec).
  { rewrite Hn in Hlo, Hhi.
    replace (prec + k - 1) with (prec - 1 + k) in Hlo by lia.
    rewrite pow10_split in Hlo, Hhi by (unfold prec; lia).
    split.
    - apply Z.mul_le_mono_pos_r with (p := 10 ^ k); lia.
    - apply Z.mul_lt_mono_pos_r with (p := 10 ^ k); lia. }
  assert (Hqpos : 0 < c / 10 ^ k).
  { pose proof (pow10_pos (prec - 1) ltac:(unfold prec; lia)). lia. }
  assert (Hnq : ndigits (c / 10 ^ k) = prec) by (now apply ndigits_unique).
  split; [|split; assumption].
  unfold fix_.
  destruct (c =? 0) eqn:E0; [apply Z.eqb_eq in E0; lia|].
  rewrite Hn.
  destruct (Etop <? prec + k + e - prec) eqn:E1;
    [apply Z.ltb_lt in E1; lia|].
  replace (Z.max (prec + k + e - prec) Etiny) with (e + k) by lia.
  destruct (e <? e + k) eqn:E2; [|apply Z.ltb_ge in E2; lia].
  replace (e + k - e) with k by lia.
  assert (Hr : round_half_even c k = c / 10 ^ k).
  { unfold round_half_even. rewrite Hm.
    pose proof (pow10_pos (k - 1) ltac:(lia)) as Hh.
    destruct (5 * 10 ^ (k - 1) <? 0) eqn:Ea; [apply Z.ltb_lt in Ea; lia|].
    destruct (0 =? 5 * 10 ^ (k - 1)) eqn:Eb; [apply Z.eqb_eq in Eb; lia|].
    reflexivity. }
  rewrite Hr, Hnq.
  rewrite Z.ltb_irrefl.
  destruct (Etop <? e + k) eqn:E3; [apply Z.ltb_lt in E3; lia|].
  reflexivity.
Qed.

Lemma normalize_fin (s : bool) (q e1 : Z) :
  0 < q -> ndigits q <= prec -> Etiny <= e1 <= Etop ->
  exists c' e',
    normalize (Fin s q e1) = Ok (Fin s c' e')
    /\ e1 <= e' /\ c' * 10 ^ (e' - e1) = q /\ 0 < c'.
Proof.
  intros Hq Hn He. unfold normalize. rewrite fix_small by assumption.
  cbn [bind].
  destruct (q =? 0) eqn:E0; [apply Z.eqb_eq in E0; lia|].
  destruct (strip_zeros (Z.to_nat (ndigits q)) q e1) as [c' e'] eqn:Es.
  apply strip_zeros_value in Es; [|assumption].
  exists c', e'. tauto.
Qed.

Lemma ndigits_below (c n : Z) : 0 < c -> 0 <= n -> c < 10 ^ n -> ndigits c <= n.
Proof.
  intros Hc Hn Hlt.
  destruct (ndigits_spec c Hc) as [[Hlo _] H1].
  destruct (Z.le_gt_cases (ndigits c) n) as [|Hgt]; [assumption|].
  assert (10 ^ n <= 10 ^ (ndigits c - 1)) by (apply Z.pow_le_mono_r; lia).
  lia.
Qed.

(** The heart of the conversion: a coefficient of at most 28 digits with at
    most 8 fractional digits is multiplied by 10^8 without loss. *)
Lemma mul_multiplier_exact (s : bool) (c e : Z) :
  0 <= c < 10 ^ 28 -> -8 <= e <= 0 ->
  exists c' e',
    (p <- mul (Fin s c e) (of_int BCH_TO_SAT_MULTIPLIER) ;; normalize p)
    = Ok (Fin s c' e')
    /\ e <= e' /\ c' * 10 ^ (e' - e) = c * 10 ^ 8 /\ 0 <= c'.
Proof.
  intros Hc He.
  change (of_int BCH_TO_SAT_MULTIPLIER) with (Fin false (10 ^ 8) 0).
  cbn [mul]. rewrite xorb_false_r, Z.add_0_r.
  assert (HE : Etiny <= e <= Etop) by (unfold Etiny, Etop, Emin, Emax, prec; lia).
  destruct (Z.eq_dec c 0) as [->|Hnz].
  - exists 0, 0. split; [|lia].
    unfold fix_ at 1. cbn [Z.mul Z.eqb].
    replace (Z.min (Z.max e Etiny) Emax) with e
      by (unfold Etiny, Emin, Emax, prec; lia).
    reflexivity.
  - assert (Hp : 0 < c * 10 ^ 8) by lia.
    assert (Hp36 : c * 10 ^ 8 < 10 ^ 36).
    { change (10 ^ 36) with (10 ^ 28 * 10 ^ 8). lia. }
    pose proof (ndigits_below _ 36 Hp ltac:(lia) Hp36) as Hnd.
    destruct (Z.le_gt_cases (ndigits (c * 10 ^ 8)) prec) as [Hsmall|Hbig].
    + rewrite fix_small by assumption. cbn [bind].
      destruct (normalize_fin s _ e Hp Hsmall HE) as (c' & e' & Hn & Hle & Hv & Hpos).
      exists c', e'. repeat split; try assumption; lia.
    + set (k := ndigits (c * 10 ^ 8) - prec).
      assert (Hk : 0 < k <= 8) by (unfold k, prec in *; lia).
      assert (Hmod : (c * 10 ^ 8) mod 10 ^ k = 0).
      { replace 8 with (8 - k + k) by lia.
        rewrite pow10_split by lia. rewrite Z.mul_assoc.
        apply Z.mod_mul. pose proof (pow10_pos k ltac:(lia)). lia. }
      assert (HEk : Etiny <= e + k <= Etop)
        by (unfold Etiny, Etop, Emin, Emax, prec; lia).
      destruct (fix_drops_zeros s (c * 10 ^ 8) e k Hp ltac:(lia)
                  ltac:(unfold k; lia) Hmod HEk) as (Hfix & Hn28 & Hqpos).
      rewrite Hfix. cbn [bind].
      destruct (normalize_fin s _ (e + k) Hqpos ltac:(lia) HEk)
        as (c' & e' & Hn & Hle & Hv & Hpos).
      exists c', e'. split; [assumption|]. split; [lia|]. split; [|lia].
      replace (e' - e) with (e' - (e + k) + k) by lia.
      rewrite pow10_split by lia. rewrite Z.mul_assoc, Hv.
      pose proof (pow10_pos k ltac:(lia)).
      rewrite (Z.div_mod (c * 10 ^ 8) (10 ^ k)) at 2 by lia. lia.
Qed.

(** A Decimal that stands for [c * 10^8 * 10^e] compares equal to that whole
    number and is integral. *)
Lemma preserved_value (s : bool) (c e c' e' : Z) :
  -8 <= e <= 0 -> e <= e' -> c' * 10 ^ (e' - e) = c * 10 ^ 8 ->
  eq_int (Fin s c' e') (signed s c * 10 ^ (8 + e)) = true
  /\ is_integral (Fin s c' e') = true.
Proof.
  intros He Hle Hv.
  pose proof (pow10_pos (- e) ltac:(lia)) as Hpe.
  assert (H8 : 10 ^ 8 = 10 ^ (8 + e) * 10 ^ (- e)).
  { rewrite <- pow10_split by lia. f_equal; lia. }
  destruct (Z.le_gt_cases 0 e') as [Hpos|Hneg].
  - assert (Hval : c' * 10 ^ e' = c * 10 ^ (8 + e)).
    { apply Z.mul_reg_r with (p := 10 ^ (- e)); [lia|].
      rewrite <- !Z.mul_assoc, <- H8, <- pow10_split by lia.
      replace (e' + - e) with (e' - e) by lia. exact Hv. }
    split.
    + unfold eq_int. apply Z.eqb_eq.
      rewrite Z.max_l, Z.max_r by lia. change (10 ^ 0) with 1.
      unfold signed. destruct s; lia.
    + unfold is_integral. apply orb_true_iff. left. now apply Z.leb_le.
  - pose proof (pow10_pos (e' - e) ltac:(lia)) as Hpd.
    assert (Hsplit : 10 ^ 8 = 10 ^ (8 + e - e') * 10 ^ (e' - e)).
    { rewrite <- pow10_split by lia. f_equal; lia. }
    assert (Hval : c' = c * 10 ^ (8 + e - e')).
    { apply Z.mul_reg_r with (p := 10 ^ (e' - e)); [lia|].
      rewrite <- Z.mul_assoc, <- Hsplit. exact Hv. }
    assert (Hexp : 10 ^ (8 + e - e') = 10 ^ (8 + e) * 10 ^ (- e')).
    { rewrite <- pow10_split by lia. f_equal; lia. }
    split.
    + unfold eq_int. apply Z.eqb_eq.
      rewrite Z.max_r, Z.max_l by lia. change (10 ^ 0) with 1.
      rewrite Hval, Hexp. unfold signed. destruct s; lia.
    + unfold is_integral. apply orb_true_iff. right. apply Z.eqb_eq.
      rewrite Hval, Hexp, Z.mul_assoc. apply Z.mod_mul.
      pose proof (pow10_pos (- e') ltac:(lia)). lia.
Qed.

(** ** Decimal numerals *)

Example numeral_1 :
  numeral false ["0"%char] (list_ascii_of_string "00000001") = "0.00000001".
Proof. reflexivity. Qed.

Lemma digit_plain (c : ascii) : is_digit c = true -> plain c = true.
Proof.
  intro H. unfold plain.
  destruct (Ascii.eqb c "_") eqn:E.
  - apply Ascii.eqb_eq in E. subst c. discriminate H.
  - unfold is_digit in H. unfold is_space.
    apply andb_prop in H. destruct H as [H1 H2].
    apply Nat.leb_le in H1. apply Nat.leb_le in H2.
    rewrite andb_true_r. apply negb_true_iff. apply orb_false_iff. split.
    + apply andb_false_iff. right. apply Nat.leb_gt. lia.
    + apply andb_false_iff. right. apply Nat.leb_gt. lia.
Qed.

Lemma lstrip_plain (l : list ascii) : forallb plain l = true -> lstrip l = l.
Proof.
  destruct l as [|c l]; simpl; [reflexivity|]. intro H.
  apply andb_prop in H. destruct H as [H _]. unfold plain in H.
  apply andb_prop in H. destruct H as [H _]. apply negb_true_iff in H.
  now rewrite H.
Qed.

Lemma forallb_rev {A : Type} (f : A -> bool) (l : list A) :
  forallb f l = true -> forallb f (rev l) = true.
Proof.
  rewrite !forallb_forall. intros H x Hx. apply H. now apply in_rev.
Qed.

Lemma clean_plain (l : list ascii) : forallb plain l = true -> clean l = l.
Proof.
  intro H. unfold clean.
  rewrite (lstrip_plain l H), (lstrip_plain (rev l) (forallb_rev _ _ H)).
  rewrite rev_involutive.
  induction l as [|c l IH]; simpl; [reflexivity|].
  simpl in H. apply andb_prop in H. destruct H as [Hc Hl].
  unfold plain in Hc. apply andb_prop in Hc. destruct Hc as [_ Hc].
  rewrite Hc. f_equal. auto.
Qed.

Lemma span_digits_all (ds : list ascii) :
  forallb is_digit ds = true -> span_digits ds = (ds, []).
Proof.
  induction ds as [|c ds IH]; simpl; [reflexivity|]. intro H.
  apply andb_prop in H. destruct H as [Hc Hds].
  now rewrite Hc, (IH Hds).
Qed.

Lemma span_digits_point (ds rest : list ascii) :
  forallb is_digit ds = true ->
  span_digits (ds ++ "."%char :: rest) = (ds, "."%char :: rest).
Proof.
  induction ds as [|c ds IH]; simpl; [reflexivity|]. intro H.
  apply andb_prop in H. destruct H as [Hc Hds].
  now rewrite Hc, (IH Hds).
Qed.

Lemma parse_sign_digit (c : ascii) (l : list ascii) :
  is_digit c = true \/ c = "."%char -> parse_sign (c :: l) = (false, c :: l).
Proof.
  intro H. unfold parse_sign.
  destruct (Ascii.eqb c "-") eqn:E1.
  { apply Ascii.eqb_eq in E1. subst c. destruct H; discriminate. }
  destruct (Ascii.eqb c "+") eqn:E2.
  { apply Ascii.eqb_eq in E2. subst c. destruct H; discriminate. }
  reflexivity.
Qed.

(** The body of a numeral is read as its digits, scaled by the length of the
    fraction. *)
Lemma parse_number_numeral (ip fp : list ascii) :
  forallb is_digit ip = true -> forallb is_digit fp = true ->
  ip ++ fp <> [] ->
  parse_number (ip ++ match fp with [] => [] | _ => "."%char :: fp end)
  = Some (digits_value (ip ++ fp), - Z.of_nat (List.length fp)).
Proof.
  intros Hip Hfp Hne. unfold parse_number.
  destruct fp as [|c fp].
  - rewrite app_nil_r in *. rewrite (span_digits_all ip Hip).
    rewrite app_nil_r. destruct ip; [congruence | reflexivity].
  - rewrite (span_digits_point ip (c :: fp) Hip).
    rewrite Ascii.eqb_refl.
    rewrite (span_digits_all (c :: fp) Hfp).
    destruct (ip ++ c :: fp) eqn:E; [congruence | reflexivity].
Qed.

(** [Decimal] reads a numeral exactly. *)
Lemma of_string_numeral (neg : bool) (ip fp : list ascii) :
  forallb is_digit ip = true -> forallb is_digit fp = true ->
  ip ++ fp <> [] ->
  constructible (digits_value (ip ++ fp)) (- Z.of_nat (List.length fp)) = true ->
  of_string (numeral neg ip fp)
  = Ok (Fin neg (digits_value (ip ++ fp)) (- Z.of_nat (List.length fp))).
Proof.
  intros Hip Hfp Hne Hcon. unfold of_string, numeral.
  rewrite list_ascii_of_string_of_list_ascii.
  set (body := ip ++ match fp with [] => [] | _ => "."%char :: fp end).
  assert (Hbody : forallb plain body = true).
  { unfold body. rewrite forallb_app. apply andb_true_intro. split.
    - apply forallb_forall. intros x Hx. apply digit_plain.
      rewrite forallb_forall in Hip. auto.
    - destruct fp as [|c fp]; [reflexivity|].
      change (forallb plain ("."%char :: c :: fp))
        with (plain "." && forallb plain (c :: fp)).
      apply andb_true_intro. split; [reflexivity|].
      apply forallb_forall. intros x Hx. apply digit_plain.
      rewrite forallb_forall in Hfp. auto. }
  assert (Hsign : parse_sign body = (false, body)).
  { unfold body. destruct ip as [|c ip].
    - destruct fp as [|c fp]; [exfalso; apply Hne; reflexivity|]. cbn [app].
      apply parse_sign_digit. now right.
    - cbn [app]. apply parse_sign_digit. left.
      simpl in Hip. apply andb_prop in Hip. tauto. }
  destruct neg.
  - rewrite clean_plain
      by (cbn [app forallb]; rewrite Hbody; reflexivity).
    cbn [app parse_sign]. rewrite (Ascii.eqb_refl "-"%char).
    unfold body. rewrite parse_number_numeral by assumption.
    now rewrite Hcon.
  - cbn [app]. rewrite clean_plain by exact Hbody.
    rewrite Hsign. unfold body. rewrite parse_number_numeral by assumption.
    now rewrite Hcon.
Qed.

(** Numbers of a million digits and exponents within a million are held. *)
Lemma constructible_bounded (c e n : Z) :
  0 <= c -> c < 10 ^ n -> 0 <= n <= 1000000 ->
  -1000000 <= e <= 1000000 ->
  constructible c e = true.
Proof.
  intros Hc Hn Hb He. unfold constructible.
  assert (Hd : 1 <= ndigits c <= 1000000).
  { destruct (Z.eq_dec c 0) as [->|Hnz].
    - change (ndigits 0) with 1. lia.
    - destruct (ndigits_spec c ltac:(lia)) as [_ H1].
      pose proof (ndigits_below c n ltac:(lia) ltac:(lia) Hn). lia. }
  apply andb_true_intro. split; apply Z.leb_le;
    unfold MAX_ETINY, MAX_EMAX; lia.
Qed.

Lemma fold_digits_nonneg (ds : list ascii) (acc : Z) :
  forallb is_digit ds = true -> 0 <= acc ->
  0 <= fold_left (fun a c => 10 * a + digit_val c) ds acc.
Proof.
  revert acc. induction ds as [|c ds IH]; intros acc Hd Hacc; cbn [fold_left];
    [assumption|].
  cbn [forallb] in Hd. apply andb_prop in Hd. destruct Hd as [Hc Hds].
  apply IH; [assumption|].
  unfold is_digit in Hc. apply andb_prop in Hc. destruct Hc as [Hc _].
  apply Nat.leb_le in Hc. unfold digit_val. lia.
Qed.

Lemma digits_value_nonneg (ds : list ascii) :
  forallb is_digit ds = true -> 0 <= digits_value ds.
Proof. intro H. apply fold_digits_nonneg; [assumption | lia]. Qed.

(** ** Exactness of the conversion *)

Lemma to_satoshi_fin (v : value) (s : bool) (c e : Z) :
  Decimal v = Ok (Fin s c e) ->
  0 <= c < 10 ^ 28 -> -8 <= e <= 0 ->
  exists d,
    to_satoshi v = Ok (VDec d)
    /\ eq_int d (signed s c * 10 ^ (8 + e)) = true
    /\ is_integral d = true.
Proof.
  intros Hv Hc He.
  destruct (mul_multiplier_exact s c e Hc He) as (c' & e' & H & Hle & Hval & _).
  bind_inv H.
  exists (Fin s c' e'). split.
  - unfold to_satoshi. rewrite Hv. cbn [bind]. rewrite E. cbn [bind].
    rewrite H. reflexivity.
  - now apply preserved_value.
Qed.

Lemma ndigits_times_multiplier (c : Z) :
  0 < c -> ndigits (c * 10 ^ 8) = ndigits c + 8.
Proof.
  intro Hc. destruct (ndigits_spec c Hc) as [[Hlo Hhi] H1].
  apply ndigits_unique; [lia|].
  replace (ndigits c + 8 - 1) with (ndigits c - 1 + 8) by lia.
  rewrite !pow10_split by lia. split.
  - apply Z.mul_le_mono_nonneg_r; lia.
  - apply Z.mul_lt_mono_pos_r; lia.
Qed.

(** Rounding half to even gives the nearest multiple, and of two equally
    near ones the even one. *)
Lemma round_half_even_spec (c k : Z) :
  0 <= c -> 0 < k ->
  c / 10 ^ k <= round_half_even c k <= c / 10 ^ k + 1
  /\ 2 * Z.abs (c - round_half_even c k * 10 ^ k) <= 10 ^ k
  /\ (2 * Z.abs (c - round_half_even c k * 10 ^ k) = 10 ^ k ->
      Z.even (round_half_even c k) = true).
Proof.
  intros Hc Hk.
  pose proof (pow10_pos (k - 1) ltac:(lia)) as Hh.
  assert (HT : 10 ^ k = 2 * (5 * 10 ^ (k - 1))).
  { replace k with (k - 1 + 1) at 1 by lia.
    rewrite pow10_split by lia. change (10 ^ 1) with 10. lia. }
  pose proof (Z.mod_pos_bound c (10 ^ k) ltac:(lia)) as Hr.
  pose proof (Z.div_mod c (10 ^ k) ltac:(lia)) as Hdm.
  unfold round_half_even.
  set (Q := c / 10 ^ k) in *. set (r := c mod 10 ^ k) in *.
  set (half := 5 * 10 ^ (k - 1)) in *.
  rewrite Z.mul_comm in Hdm.
  destruct (half <? r) eqn:E1; cbn [orb].
  - apply Z.ltb_lt in E1.
    replace ((Q + 1) * 10 ^ k) with (Q * 10 ^ k + 10 ^ k) by ring.
    split; [lia|]. split; lia.
  - apply Z.ltb_ge in E1.
    destruct (r =? half) eqn:E2; cbn [andb].
    + apply Z.eqb_eq in E2.
      destruct (Z.odd Q) eqn:E3.
      * replace ((Q + 1) * 10 ^ k) with (Q * 10 ^ k + 10 ^ k) by ring.
        split; [lia|]. split; [lia|]. intros _.
        now rewrite Z.add_1_r, Z.even_succ.
      * split; [lia|]. split; [lia|]. intros _.
        now rewrite <- Z.negb_odd, E3.
    + apply Z.eqb_neq in E2. split; [lia|]. split; lia.
Qed.

(** A coefficient of more than 28 digits is rounded to 28 of them; when the
    rounding carries into a 29th digit, the exponent takes it up. *)
Lemma fix_rounds (s : bool) (c e k : Z) :
  0 < c -> 0 < k -> ndigits c = prec + k ->
  Etiny <= e + k -> e + k + 1 <= Etop ->
  exists c1 e1,
    fix_ (Fin s c e) = Ok (Fin s c1 e1)
    /\ 0 < c1 /\ ndigits c1 <= prec
    /\ e + k <= e1 <= e + k + 1
    /\ c1 * 10 ^ (e1 - e) = round_half_even c k * 10 ^ k.
Proof.
  intros Hc Hk Hn Hlo Hhi.
  pose proof (pow10_pos k ltac:(lia)) as Hp.
  destruct (ndigits_spec c Hc) as [[Hclo Hchi] _].
  assert (HQ : 10 ^ (prec - 1) <= c / 10 ^ k < 10 ^ prec).
  { rewrite Hn in Hclo, Hchi.
    replace (prec + k - 1) with (prec - 1 + k) in Hclo by lia.
    rewrite pow10_split in Hclo, Hchi by (unfold prec; lia).
    split.
    - apply Z.div_le_lower_bound; lia.
    - apply Z.div_lt_upper_bound; lia. }
  destruct (round_half_even_spec c k ltac:(lia) Hk) as [Hq _].
  set (q := round_half_even c k) in *.
  assert (H27 : 0 < 10 ^ (prec - 1)) by (apply pow10_pos; unfold prec; lia).
  unfold fix_.
  destruct (c =? 0) eqn:E0; [apply Z.eqb_eq in E0; lia|].
  rewrite Hn.
  destruct (Etop <? prec + k + e - prec) eqn:E1;
    [apply Z.ltb_lt in E1; lia|].
  replace (Z.max (prec + k + e - prec) Etiny) with (e + k) by lia.
  destruct (e <? e + k) eqn:E2; [|apply Z.ltb_ge in E2; lia].
  replace (e + k - e) with k by lia. fold q.
  destruct (prec <? ndigits q) eqn:E3.
  - apply Z.ltb_lt in E3.
    assert (Hq28 : q = 10 ^ prec).
    { destruct (ndigits_spec q ltac:(lia)) as [[Hqlo _] _].
      assert (10 ^ prec <= 10 ^ (ndigits q - 1))
        by (apply Z.pow_le_mono_r; lia).
      lia. }
    destruct (Etop <? e + k + 1) eqn:E4; [apply Z.ltb_lt in E4; lia|].
    exists (q / 10), (e + k + 1). split; [reflexivity|].
    rewrite Hq28. change (10 ^ prec / 10) with (10 ^ 27).
    split; [reflexivity|]. split; [vm_compute; discriminate|].
    split; [lia|].
    replace (e + k + 1 - e) with (1 + k) by lia.
    rewrite pow10_split by lia. change (10 ^ prec) with (10 ^ 27 * 10 ^ 1).
    ring.
  - apply Z.ltb_ge in E3.
    destruct (Etop <? e + k) eqn:E4; [apply Z.ltb_lt in E4; lia|].
    exists q, (e + k). split; [reflexivity|].
    split; [lia|]. split; [assumption|]. split; [lia|].
    now replace (e + k - e) with k by lia.
Qed.

Lemma fold_digits_bound (ds : list ascii) (acc : Z) :
  forallb is_digit ds = true -> 0 <= acc ->
  fold_left (fun a c => 10 * a + digit_val c) ds acc
  < (acc + 1) * 10 ^ Z.of_nat (List.length ds).
Proof.
  revert acc. induction ds as [|c ds IH]; intros acc Hd Hacc.
  - cbn. lia.
  - cbn [fold_left List.length]. cbn [forallb] in Hd.
    apply andb_prop in Hd. destruct Hd as [Hc Hds].
    unfold is_digit in Hc. apply andb_prop in Hc. destruct Hc as [H1 H2].
    apply Nat.leb_le in H1. apply Nat.leb_le in H2.
    assert (Hv : 0 <= digit_val c <= 9) by (unfold digit_val; lia).
    eapply Z.lt_le_trans; [apply IH; [assumption | lia]|].
    rewrite Nat2Z.inj_succ, Z.pow_succ_r by lia.
    pose proof (pow10_pos (Z.of_nat (List.length ds)) ltac:(lia)) as Hp.
    replace ((acc + 1) * (10 * 10 ^ Z.of_nat (List.length ds)))
      with ((10 * acc + 10) * 10 ^ Z.of_nat (List.length ds)) by ring.
    apply Z.mul_le_mono_nonneg_r; lia.
Qed.

Lemma digits_value_bound (ds : list ascii) :
  forallb is_digit ds = true ->
  digits_value ds < 10 ^ Z.of_nat (List.length ds).
Proof.
  intro H. unfold digits_value.
  pose proof (fold_digits_bound ds 0 H ltac:(lia)) as Hb. lia.
Qed.

(** The conversion of a numeral of more than 28 digits. *)
Lemma to_satoshi_rounds (neg : bool) (ip fp : list ascii) :
  forallb is_digit ip = true -> forallb is_digit fp = true ->
  (List.length fp <= 8)%nat ->
  10 ^ 28 <= digits_value (ip ++ fp) ->
  ndigits (digits_value (ip ++ fp)) - Z.of_nat (List.length fp) <= 999991 ->
  converts_rounded neg ip fp.
Proof.
  intros Hip Hfp Hlen Hbig Hmax.
  assert (Hds : forallb is_digit (ip ++ fp) = true)
    by (rewrite forallb_app, Hip, Hfp; reflexivity).
  set (c := digits_value (ip ++ fp)) in *.
  set (f := Z.of_nat (List.length fp)) in *.
  assert (Hf : 0 <= f <= 8) by (unfold f; lia).
  assert (Hc : 0 < c) by lia.
  assert (Hne : ip ++ fp <> []).
  { intro He. unfold c in Hbig. rewrite He in Hbig.
    change (digits_value []) with 0 in Hbig.
    pose proof (pow10_pos 28 ltac:(lia)). lia. }
  destruct (ndigits_spec c Hc) as [[_ Hcb] _].
  assert (Hnd : 29 <= ndigits c).
  { destruct (Z.lt_ge_cases (ndigits c) 29) as [Hlt|]; [|assumption].
    assert (10 ^ ndigits c <= 10 ^ 28) by (apply Z.pow_le_mono_r; lia).
    lia. }
  set (k := ndigits c - 20).
  assert (Hcon : constructible c (- f) = true).
  { apply constructible_bounded with (n := ndigits c); lia. }
  pose proof (of_string_numeral neg ip fp Hip Hfp Hne Hcon) as Hparse.
  fold c f in Hparse.
  assert (HP : 0 < c * 10 ^ 8) by lia.
  destruct (fix_rounds neg (c * 10 ^ 8) (- f) k HP ltac:(unfold k; lia))
    as (c1 & e1 & Hfix & Hc1 & Hn1 & He1 & Hv1).
  { rewrite ndigits_times_multiplier by assumption. unfold k, prec. lia. }
  { unfold Etiny, Emin, prec, k. lia. }
  { unfold Etop, Emax, prec, k. lia. }
  destruct (normalize_fin neg c1 e1 Hc1 Hn1) as (c' & e' & Hnorm & Hle & Hv & _).
  { unfold Etiny, Etop, Emin, Emax, prec, k in *. lia. }
  destruct (round_half_even_spec (c * 10 ^ 8) k ltac:(lia) ltac:(unfold k; lia))
    as (_ & Hnear & Htie).
  destruct (ndigits_spec (c * 10 ^ 8) HP) as [[Hplo Hphi] _].
  rewrite ndigits_times_multiplier in Hplo, Hphi by assumption.
  exists c', e', k, (round_half_even (c * 10 ^ 8) k).
  split.
  { unfold to_satoshi. cbn [Decimal]. rewrite Hparse. cbn [bind].
    change (of_int BCH_TO_SAT_MULTIPLIER) with (Fin false (10 ^ 8) 0).
    cbn [mul]. rewrite xorb_false_r, Z.add_0_r, Hfix. cbn [bind].
    now rewrite Hnorm. }
  split; [lia|]. split; [unfold k; lia|].
  split.
  { replace (27 + k) with (ndigits c + 8 - 1) by (unfold k; lia).
    replace (28 + k) with (ndigits c + 8) by (unfold k; lia).
    split; assumption. }
  split; [|split; assumption].
  fold f. rewrite <- Hv1, <- Hv.
  replace (e' + f) with (e' - e1 + (e1 - - f)) by lia.
  rewrite pow10_split by lia. ring.
Qed.

(** C3, as the code has it: the conversion of a decimal numeral with at most
    8 fractional digits is exact as long as the numeral has at most 28
    significant digits, the precision of the Decimal context; "0.00000001"
    gives 1 and "1.23456789" gives 123456789.  A longer numeral gives the
    exact product rounded to 28 significant digits, half to even, as long as
    its integer part has at most 999991 digits, which keeps the product
    within the exponents of the context. *)
Theorem to_satoshi_exact_within_precision :
  (forall neg ip fp,
      forallb is_digit ip = true -> forallb is_digit fp = true ->
      ip ++ fp <> [] ->
      (List.length fp <= 8)%nat ->
      digits_value (ip ++ fp) < 10 ^ 28 ->
      converts_exactly neg ip fp)
  /\ to_satoshi (VStr "0.00000001") = Ok (VDec (Fin false 1 0))
  /\ to_satoshi (VStr "1.23456789") = Ok (VDec (Fin false 123456789 0))
  /\ (forall neg ip fp,
         forallb is_digit ip = true -> forallb is_digit fp = true ->
         (List.length fp <= 8)%nat ->
         10 ^ 28 <= digits_value (ip ++ fp) ->
         ndigits (digits_value (ip ++ fp)) - Z.of_nat (List.length fp)
         <= 999991 ->
         converts_rounded neg ip fp).
Proof.
  split; [|split; [|split]];
    [| vm_compute; reflexivity | vm_compute; reflexivity
     | exact to_satoshi_rounds].
  intros neg ip fp Hip Hfp Hne Hlen Hprec.
  assert (Hds : forallb is_digit (ip ++ fp) = true)
    by (rewrite forallb_app, Hip, Hfp; reflexivity).
  pose proof (digits_value_nonneg _ Hds) as Hnn.
  destruct (to_satoshi_fin (VStr (numeral neg ip fp)) neg
              (digits_value (ip ++ fp)) (- Z.of_nat (List.length fp)))
    as (d & Hd & Heq & _).
  - cbn [Decimal]. apply of_string_numeral; try assumption.
    apply constructible_bounded with (n := 28); lia.
  - lia.
  - lia.
  - exists d. split; [assumption|].
    replace (8 - Z.of_nat (List.length fp))
      with (8 + - Z.of_nat (List.length fp)) by lia.
    exact Heq.
Qed.

Lemma to_satoshi_exact_within_precision_witness :
  converts_exactly true (list_ascii_of_string "20999999")
    (list_ascii_of_string "9769")
  /\ converts_rounded false
       (list_ascii_of_string "10000000000000000000000000015") [].
Proof.
  split.
  - apply (proj1 to_satoshi_exact_within_precision).
    + reflexivity.
    + reflexivity.
    + discriminate.
    + simpl. lia.
    + vm_compute. reflexivity.
  - apply (proj2 (proj2 (proj2 to_satoshi_exact_within_precision))).
    + reflexivity.
    + reflexivity.
    + simpl. lia.
    + vm_compute. discriminate.
    + vm_compute. discriminate.
Defined.

(** C3, as stated, fails: a numeral of 29 digits without fraction is
    rounded to 28 digits by the multiplication. *)
Lemma conversion_inexact_beyond_precision :
  forallb is_digit (list_ascii_of_string "10000000000000000000000000001") = true
  /\ (List.length (@nil ascii) <= 8)%nat
  /\ to_satoshi (VStr "10000000000000000000000000001")
     = Ok (VDec (Fin false 1 36))
  /\ ~ converts_exactly false
         (list_ascii_of_string "10000000000000000000000000001") [].
Proof.
  split; [reflexivity|]. split; [simpl; lia|].
  split; [vm_compute; reflexivity|].
  intros (d & Hd & He).
  vm_compute in Hd. injection Hd as <-.
  vm_compute in He. discriminate He.
Qed.

(** ** Amounts *)













Lemma output_part_amount (txout : value) (part : TxPart) :
  output_part txout = Ok part ->
  exists v, getitem_key txout "value" = Ok v /\ to_satoshi v = Ok (amount part).
Proof.
  unfold output_part. intro H. bind_inv H. injection H as <-. eauto.
Qed.



Section Amounts.

Variable http_get : string -> option Z -> result response.
Variable currency_to_satoshi : value -> string -> result Z.


End Amounts.

(** ** Instances on the sample responses *)

Lemma broadcast_tx_true_iff_status_200_witness :
  broadcast_tx (answering (Response 404 None)) regtest "0100" = Ok false
  /\ broadcast_tx (answering (Response 201 None)) regtest "0100" = Ok false
  /\ broadcast_tx (answering (Response 500 None)) regtest "0100" = Ok false
  /\ broadcast_tx (answering (Response 200 None)) regtest "0100" = Ok true.
Proof.
  pose (url := "http://localhost:12500/v2/rawtransactions/sendRawTransaction/0100").
  split; [|split; [|split]].
  - apply (proj2 (proj2 (broadcast_tx_true_iff_status_200
             (answering (Response 404 None)) regtest "0100" url
             (Response 404 None) eq_refl eq_refl))).
    simpl. lia.
  - apply (proj2 (proj2 (broadcast_tx_true_iff_status_200
             (answering (Response 201 None)) regtest "0100" url
             (Response 201 None) eq_refl eq_refl))).
    simpl. lia.
  - apply (proj2 (proj2 (broadcast_tx_true_iff_status_200
             (answering (Response 500 None)) regtest "0100" url
             (Response 500 None) eq_refl eq_refl))).
    simpl. lia.
  - apply (proj1 (proj2 (broadcast_tx_true_iff_status_200
             (answering (Response 200 None)) regtest "0100" url
             (Response 200 None) eq_refl eq_refl))).
    reflexivity.
Defined.

Lemma get_unspent_script_is_top_level_witness :
  Forall2 (fun tx u =>
             getitem_key utxo_doc "scriptPubKey" = Ok (u_script u)
             /\ getitem_key tx "txid" = Ok (u_txid u)
             /\ getitem_key tx "vout" = Ok (u_txindex u))
          utxo_entries utxo_records
  /\ map u_script utxo_records = [VStr "76a91488ac"; VStr "76a91488ac"].
Proof.
  split; [|reflexivity].
  apply (get_unspent_script_is_top_level (answering utxo_response) whole_coins
           regtest "bchtest:qa" utxo_response utxo_doc utxo_entries utxo_records);
    vm_compute; reflexivity.
Defined.

Lemma get_transaction_parts_in_order_witness :
  Forall2 (fun txin part => input_part txin = Ok part)
    tx_details_vin (inputs tx_details_tx)
  /\ Forall2 (fun txout part => output_part txout = Ok part)
       tx_details_vout (outputs tx_details_tx)
  /\ List.length (inputs tx_details_tx) = List.length tx_details_vin
  /\ List.length (outputs tx_details_tx) = List.length tx_details_vout.
Proof.
  apply (get_transaction_parts_in_order (answering tx_details_response)
           regtest "4a5e" tx_details_response tx_details_doc);
    vm_compute; reflexivity.
Defined.

Lemma get_transaction_output_address_witness :
  Forall2 (fun txout part =>
             exists spk,
               getitem_key txout "scriptPubKey" = Ok (VDict spk)
               /\ match dict_get "cashAddrs" spk with
                  | None => address part = VNone
                  | Some VNone => address part = VNone
                  | Some ca => getitem_index ca 0 = Ok (address part)
                  end)
          tx_details_vout (outputs tx_details_tx)
  /\ map address (outputs tx_details_tx) = [VStr "bchtest:qc"; VNone; VNone].
Proof.
  split; [|reflexivity].
  apply (get_transaction_output_address (answering tx_details_response)
           regtest "4a5e" tx_details_response tx_details_doc);
    vm_compute; reflexivity.
Defined.

Lemma get_tx_amount_index_witness :
  get_tx_amount (answering tx_details_response) regtest "4a5e" 5
  = Raise IndexError
  /\ get_tx_amount (answering tx_details_response) regtest "4a5e" 0
     = Ok (VDec (Fin false 123456789 0)).
Proof.
  pose proof (get_tx_amount_index (answering tx_details_response) regtest "4a5e"
                tx_details_response tx_details_doc tx_details_vout
                eq_refl eq_refl eq_refl) as H.
  split.
  - apply (proj1 (H 5)). simpl. lia.
  - destruct (proj2 (H 0)) as (txout & Hn & ->); [simpl; lia|].
    vm_compute in Hn. injection Hn as <-. vm_compute. reflexivity.
Defined.



(** * Further properties of the client *)

(** ** Requests, failures and statuses *)

Section ClientBehaviour.

Variable http_get : string -> option Z -> result response.
Variable currency_to_satoshi : value -> string -> result Z.

Ltac through_fetch :=
  unfold fetch_response, request_url;
  destruct (make_endpoint_url _ _); cbn [bind]; [|reflexivity];
  destruct (format _ _); cbn [bind]; [|reflexivity];
  destruct (http_get _ _); cbn [bind]; [|reflexivity];
  destruct (raise_for_status _) as [[]|]; reflexivity.

Lemma get_balance_through_fetch self addr :
  get_balance http_get self addr
  = (r <- fetch_response http_get self "address" addr ;;
     data <- json_of false r ;;
     confirmed <- getitem_key data "balanceSat" ;;
     unconfirmed <- getitem_key data "unconfirmedBalanceSat" ;;
     py_add confirmed unconfirmed).
Proof. unfold get_balance. through_fetch. Qed.

Lemma get_transactions_through_fetch self addr :
  get_transactions http_get self addr
  = (r <- fetch_response http_get self "address" addr ;;
     data <- json_of false r ;;
     getitem_key data "transactions").
Proof. unfold get_transactions. through_fetch. Qed.

Lemma get_raw_transaction_through_fetch self id :
  get_raw_transaction http_get self id
  = (r <- fetch_response http_get self "tx-details" id ;; json_of true r).
Proof. unfold get_raw_transaction. through_fetch. Qed.

Lemma get_tx_amount_through_fetch self id i :
  get_tx_amount http_get self id i
  = (r <- fetch_response http_get self "tx-details" id ;;
     response <- json_of true r ;;
     vout <- getitem_key response "vout" ;;
     txout <- getitem_index vout i ;;
     v <- getitem_key txout "value" ;;
     to_satoshi v).
Proof. unfold get_tx_amount. through_fetch. Qed.

Lemma get_transaction_fetch_failure self id e :
  fetch_response http_get self "tx-details" id = Raise e ->
  get_transaction http_get self id = Raise e.
Proof.
  unfold get_transaction, fetch_response, request_url.
  destruct (make_endpoint_url _ _); cbn [bind]; [|congruence].
  destruct (format _ _); cbn [bind]; [|congruence].
  destruct (http_get _ _); cbn [bind]; [|congruence].
  destruct (raise_for_status _) as [[]|]; cbn [bind]; [discriminate | congruence].
Qed.

Lemma get_unspent_fetch_failure self addr e :
  fetch_response http_get self "unspent" addr = Raise e ->
  get_unspent http_get currency_to_satoshi self addr = Raise e.
Proof.
  unfold get_unspent, fetch_response, request_url.
  destruct (make_endpoint_url _ _); cbn [bind]; [|congruence].
  destruct (format _ _); cbn [bind]; [|congruence].
  destruct (http_get _ _); cbn [bind]; [|congruence].
  destruct (raise_for_status _) as [[]|]; cbn [bind]; [discriminate | congruence].
Qed.

Lemma fetch_transport_failure self path arg e :
  answered http_get self path arg (Some DEFAULT_TIMEOUT) (Raise e) ->
  fetch_response http_get self path arg = Raise e.
Proof.
  intros (url & Hu & Hg). unfold fetch_response. rewrite Hu. cbn [bind].
  rewrite Hg. reflexivity.
Qed.

Lemma fetch_error_status self path arg r :
  answered http_get self path arg (Some DEFAULT_TIMEOUT) (Ok r) ->
  error_status r ->
  fetch_response http_get self path arg = Raise HTTPError.
Proof.
  intros (url & Hu & Hg) [Hlo Hhi]. unfold fetch_response.
  rewrite Hu. cbn [bind]. rewrite Hg. cbn [bind]. unfold raise_for_status.
  destruct (400 <=? status_code r) eqn:E1; [|apply Z.leb_gt in E1; lia].
  destruct (status_code r <? 600) eqn:E2; [|apply Z.ltb_ge in E2; lia].
  reflexivity.
Qed.

Lemma fetch_passes self path arg r :
  answered http_get self path arg (Some DEFAULT_TIMEOUT) (Ok r) ->
  ~ error_status r ->
  fetch_response http_get self path arg = Ok r.
Proof.
  intros (url & Hu & Hg) Hs. unfold fetch_response.
  rewrite Hu. cbn [bind]. rewrite Hg. cbn [bind]. unfold raise_for_status.
  destruct (400 <=? status_code r) eqn:E1; [|reflexivity].
  destruct (status_code r <? 600) eqn:E2; [|reflexivity].
  apply Z.leb_le in E1. apply Z.ltb_lt in E2.
  exfalso. apply Hs. split; assumption.
Qed.

(** Every reading operation ends with the exception its fetch ends with. *)
Lemma reads_fail_with_fetch self arg e :
  (fetch_response http_get self "address" arg = Raise e ->
   get_balance http_get self arg = Raise e
   /\ get_transactions http_get self arg = Raise e)
  /\ (fetch_response http_get self "tx-details" arg = Raise e ->
      get_transaction http_get self arg = Raise e
      /\ (forall i, get_tx_amount http_get self arg i = Raise e)
      /\ get_raw_transaction http_get self arg = Raise e)
  /\ (fetch_response http_get self "unspent" arg = Raise e ->
      get_unspent http_get currency_to_satoshi self arg = Raise e).
Proof.
  split; [|split]; intro H.
  - rewrite get_balance_through_fetch, get_transactions_through_fetch, H.
    split; reflexivity.
  - split; [now apply get_transaction_fetch_failure|].
    split; [intro i; rewrite get_tx_amount_through_fetch, H; reflexivity|].
    rewrite get_raw_transaction_through_fetch, H. reflexivity.
  - now apply get_unspent_fetch_failure.
Qed.

(** X1: a transport failure of the GET request (time-out, refused
    connection) ends each of the seven operations with that very exception. *)
Theorem transport_failure_propagates self arg e :
  (answered http_get self "address" arg (Some DEFAULT_TIMEOUT) (Raise e) ->
   get_balance http_get self arg = Raise e
   /\ get_transactions http_get self arg = Raise e)
  /\ (answered http_get self "tx-details" arg (Some DEFAULT_TIMEOUT) (Raise e) ->
      get_transaction http_get self arg = Raise e
      /\ (forall i, get_tx_amount http_get self arg i = Raise e)
      /\ get_raw_transaction http_get self arg = Raise e)
  /\ (answered http_get self "unspent" arg (Some DEFAULT_TIMEOUT) (Raise e) ->
      get_unspent http_get currency_to_satoshi self arg = Raise e)
  /\ (answered http_get self "raw-tx" arg None (Raise e) ->
      broadcast_tx http_get self arg = Raise e).
Proof.
  destruct (reads_fail_with_fetch self arg e) as (Ha & Ht & Hu).
  split; [|split; [|split]]; intro H.
  - apply Ha. now apply fetch_transport_failure.
  - apply Ht. now apply fetch_transport_failure.
  - apply Hu. now apply fetch_transport_failure.
  - destruct H as (url & Hurl & Hg). unfold request_url in Hurl.
    unfold broadcast_tx. bind_inv Hurl. rewrite E. cbn [bind].
    rewrite Hurl. cbn [bind]. rewrite Hg. reflexivity.
Qed.

(** X2: on a response with a status code from 400 to 599 each of the six
    reading operations raises [HTTPError], whatever the body holds. *)
Theorem error_status_raises_HTTPError self arg r :
  error_status r ->
  (answered http_get self "address" arg (Some DEFAULT_TIMEOUT) (Ok r) ->
   get_balance http_get self arg = Raise HTTPError
   /\ get_transactions http_get self arg = Raise HTTPError)
  /\ (answered http_get self "tx-details" arg (Some DEFAULT_TIMEOUT) (Ok r) ->
      get_transaction http_get self arg = Raise HTTPError
      /\ (forall i, get_tx_amount http_get self arg i = Raise HTTPError)
      /\ get_raw_transaction http_get self arg = Raise HTTPError)
  /\ (answered http_get self "unspent" arg (Some DEFAULT_TIMEOUT) (Ok r) ->
      get_unspent http_get currency_to_satoshi self arg = Raise HTTPError).
Proof.
  intro Hs.
  destruct (reads_fail_with_fetch self arg HTTPError) as (Ha & Ht & Hu).
  split; [|split]; intro H.
  - apply Ha. now apply fetch_error_status with (r := r).
  - apply Ht. now apply fetch_error_status with (r := r).
  - apply Hu. now apply fetch_error_status with (r := r).
Qed.

(** X3: a status code outside 400..599 is no error, be it 200 or not:
    [get_raw_transaction] then hands out the decoded body as it is, and
    [get_transactions] the value under [transactions] as it is. *)
Theorem other_statuses_pass self arg r :
  ~ error_status r ->
  (answered http_get self "tx-details" arg (Some DEFAULT_TIMEOUT) (Ok r) ->
   get_raw_transaction http_get self arg = json_of true r)
  /\ (answered http_get self "address" arg (Some DEFAULT_TIMEOUT) (Ok r) ->
      get_transactions http_get self arg
      = (data <- json_of false r ;; getitem_key data "transactions")).
Proof.
  intro Hs. split; intro H.
  - rewrite get_raw_transaction_through_fetch.
    now rewrite (fetch_passes _ _ _ _ H Hs).
  - rewrite get_transactions_through_fetch.
    now rewrite (fetch_passes _ _ _ _ H Hs).
Qed.

(** ** Malformed responses *)

Ltac after_fetch Hr :=
  let template := fresh "template" in
  let url := fresh "url" in
  let Ht := fresh "Ht" in
  let Hu := fresh "Hu" in
  let Hget := fresh "Hget" in
  let Hst := fresh "Hst" in
  apply fetch_response_inv in Hr;
  destruct Hr as (template & url & Ht & Hu & Hget & Hst);
  rewrite Ht; cbn [bind]; rewrite Hu; cbn [bind];
  rewrite Hget; cbn [bind]; rewrite Hst; cbn [bind].

(** What [get_transaction] and [get_unspent] do with a fetched response. *)
Lemma get_transaction_fetched self id r :
  fetch_response http_get self "tx-details" id = Ok r ->
  get_transaction http_get self id
  = (response <- json_of true r ;;
     id <- getitem_key response "txid" ;;
     height <- getitem_key response "blockheight" ;;
     value_in <- getitem_key response "valueIn" ;;
     total_in <- to_satoshi value_in ;;
     value_out <- getitem_key response "valueOut" ;;
     total_out <- to_satoshi value_out ;;
     fees <- getitem_key response "fees" ;;
     fee <- to_satoshi fees ;;
     vin <- getitem_key response "vin" ;;
     txins <- py_iter vin ;;
     tx <- fold_left (fun acc txin =>
                        tx <- acc ;;
                        part <- input_part txin ;;
                        Ok (add_input tx part)) txins
             (Ok (new_Transaction id height total_in total_out fee)) ;;
     vout <- getitem_key response "vout" ;;
     txouts <- py_iter vout ;;
     fold_left (fun acc txout =>
                  tx <- acc ;;
                  part <- output_part txout ;;
                  Ok (add_output tx part)) txouts (Ok tx)).
Proof. intro Hr. unfold get_transaction. after_fetch Hr. reflexivity. Qed.

Lemma get_unspent_fetched self addr r :
  fetch_response http_get self "unspent" addr = Ok r ->
  get_unspent http_get currency_to_satoshi self addr
  = (data <- json_of false r ;;
     utxos <- getitem_key data "utxos" ;;
     txs <- py_iter utxos ;;
     mapM (fun tx =>
             a <- getitem_key tx "amount" ;;
             sat <- currency_to_satoshi a "bch" ;;
             conf <- getitem_key tx "confirmations" ;;
             data' <- json_of false r ;;
             script <- getitem_key data' "scriptPubKey" ;;
             id <- getitem_key tx "txid" ;;
             index <- getitem_key tx "vout" ;;
             Ok (mkUnspent sat conf script id index)) txs).
Proof. intro Hr. unfold get_unspent. after_fetch Hr. reflexivity. Qed.

(** X4: when the body of the response is no JSON document, each of the six
    reading operations raises [JSONDecodeError]. *)
Theorem undecodable_body_raises self arg r :
  body r = None ->
  (fetch_response http_get self "address" arg = Ok r ->
   get_balance http_get self arg = Raise JSONDecodeError
   /\ get_transactions http_get self arg = Raise JSONDecodeError)
  /\ (fetch_response http_get self "tx-details" arg = Ok r ->
      get_transaction http_get self arg = Raise JSONDecodeError
      /\ (forall i, get_tx_amount http_get self arg i = Raise JSONDecodeError)
      /\ get_raw_transaction http_get self arg = Raise JSONDecodeError)
  /\ (fetch_response http_get self "unspent" arg = Ok r ->
      get_unspent http_get currency_to_satoshi self arg = Raise JSONDecodeError).
Proof.
  intro Hb.
  assert (Hj : forall d, json_of d r = Raise JSONDecodeError)
    by (intro d; unfold json_of; now rewrite Hb).
  split; [|split]; intro H.
  - rewrite get_balance_through_fetch, get_transactions_through_fetch, H.
    cbn [bind]. rewrite Hj. split; reflexivity.
  - rewrite (get_transaction_fetched _ _ _ H), get_raw_transaction_through_fetch.
    split; [now rewrite Hj|].
    split; [intro i; rewrite get_tx_amount_through_fetch, H; cbn [bind];
            now rewrite Hj|].
    rewrite H. cbn [bind]. apply Hj.
  - rewrite (get_unspent_fetched _ _ _ H). now rewrite Hj.
Qed.

(** The first field each operation reads of the document. *)
Lemma reads_fail_with_first_field self arg r doc e :
  (fetch_response http_get self "address" arg = Ok r ->
   json_of false r = Ok doc ->
   (getitem_key doc "balanceSat" = Raise e ->
    get_balance http_get self arg = Raise e)
   /\ (getitem_key doc "transactions" = Raise e ->
       get_transactions http_get self arg = Raise e))
  /\ (fetch_response http_get self "tx-details" arg = Ok r ->
      json_of true r = Ok doc ->
      (getitem_key doc "txid" = Raise e ->
       get_transaction http_get self arg = Raise e)
      /\ (getitem_key doc "vout" = Raise e ->
          forall i, get_tx_amount http_get self arg i = Raise e))
  /\ (fetch_response http_get self "unspent" arg = Ok r ->
      json_of false r = Ok doc ->
      getitem_key doc "utxos" = Raise e ->
      get_unspent http_get currency_to_satoshi self arg = Raise e).
Proof.
  split; [|split]; intros Hr Hdoc.
  - rewrite get_balance_through_fetch, get_transactions_through_fetch, Hr.
    cbn [bind]. rewrite Hdoc. cbn [bind].
    split; intro H; now rewrite H.
  - rewrite (get_transaction_fetched _ _ _ Hr), Hdoc. cbn [bind].
    split; intro H; [now rewrite H|].
    intro i. rewrite get_tx_amount_through_fetch, Hr. cbn [bind].
    rewrite Hdoc. cbn [bind]. now rewrite H.
  - intro H. rewrite (get_unspent_fetched _ _ _ Hr), Hdoc. cbn [bind].
    now rewrite H.
Qed.

Lemma getitem_key_non_object (doc : value) (k : string) :
  (forall m, doc <> VDict m) -> getitem_key doc k = Raise TypeError.
Proof. intro H. destruct doc; try reflexivity. now contradiction (H m). Qed.

(** X5: when the document of the response is no JSON object (an array, a
    string, a number, [null]), the five operations that read fields of it
    raise [TypeError]. *)
Theorem non_object_document_raises_TypeError self arg r doc :
  (forall m, doc <> VDict m) ->
  (fetch_response http_get self "address" arg = Ok r ->
   json_of false r = Ok doc ->
   get_balance http_get self arg = Raise TypeError
   /\ get_transactions http_get self arg = Raise TypeError)
  /\ (fetch_response http_get self "tx-details" arg = Ok r ->
      json_of true r = Ok doc ->
      get_transaction http_get self arg = Raise TypeError
      /\ forall i, get_tx_amount http_get self arg i = Raise TypeError)
  /\ (fetch_response http_get self "unspent" arg = Ok r ->
      json_of false r = Ok doc ->
      get_unspent http_get currency_to_satoshi self arg = Raise TypeError).
Proof.
  intro Hno.
  destruct (reads_fail_with_first_field self arg r doc TypeError)
    as (Ha & Ht & Hu).
  split; [|split]; intros Hr Hdoc.
  - destruct (Ha Hr Hdoc) as [H1 H2].
    split; [apply H1 | apply H2]; now apply getitem_key_non_object.
  - destruct (Ht Hr Hdoc) as [H1 H2].
    split; [apply H1 | apply H2]; now apply getitem_key_non_object.
  - apply (Hu Hr Hdoc). now apply getitem_key_non_object.
Qed.

(** X6: when the document is an object that lacks the field an operation
    reads first, the operation raises [KeyError]; [get_balance] does so too
    when only [unconfirmedBalanceSat] is missing. *)
Theorem missing_field_raises_KeyError self arg r m :
  (fetch_response http_get self "address" arg = Ok r ->
   json_of false r = Ok (VDict m) ->
   (dict_get "balanceSat" m = None \/ dict_get "unconfirmedBalanceSat" m = None ->
    get_balance http_get self arg = Raise KeyError)
   /\ (dict_get "transactions" m = None ->
       get_transactions http_get self arg = Raise KeyError))
  /\ (fetch_response http_get self "tx-details" arg = Ok r ->
      json_of true r = Ok (VDict m) ->
      (dict_get "txid" m = None ->
       get_transaction http_get self arg = Raise KeyError)
      /\ (dict_get "vout" m = None ->
          forall i, get_tx_amount http_get self arg i = Raise KeyError))
  /\ (fetch_response http_get self "unspent" arg = Ok r ->
      json_of false r = Ok (VDict m) ->
      dict_get "utxos" m = None ->
      get_unspent http_get currency_to_satoshi self arg = Raise KeyError).
Proof.
  destruct (reads_fail_with_first_field self arg r (VDict m) KeyError)
    as (Ha & Ht & Hu).
  assert (Hk : forall k, dict_get k m = None ->
                         getitem_key (VDict m) k = Raise KeyError)
    by (intros k H; cbn [getitem_key]; now rewrite H).
  split; [|split]; intros Hr Hdoc.
  - destruct (Ha Hr Hdoc) as [H1 H2]. split; [|intro H; apply H2; auto].
    intros [H|H]; [apply H1; auto|].
    rewrite get_balance_through_fetch, Hr. cbn [bind]. rewrite Hdoc.
    cbn [bind getitem_key]. rewrite H.
    now destruct (dict_get "balanceSat" m).
  - destruct (Ht Hr Hdoc) as [H1 H2]. split; intro H; [apply H1 | apply H2]; auto.
  - intro H. apply (Hu Hr Hdoc). auto.
Qed.

(** ** Balances *)

(** X7: [get_balance] returns the exact sum of the two whole numbers under
    [balanceSat] and [unconfirmedBalanceSat], of either sign. *)
Theorem get_balance_sums self addr r data confirmed unconfirmed :
  fetch_response http_get self "address" addr = Ok r ->
  json_of false r = Ok data ->
  getitem_key data "balanceSat" = Ok (VInt confirmed) ->
  getitem_key data "unconfirmedBalanceSat" = Ok (VInt unconfirmed) ->
  get_balance http_get self addr = Ok (VInt (confirmed + unconfirmed)).
Proof.
  intros Hr Hdata Hc Hu.
  rewrite get_balance_through_fetch, Hr. cbn [bind].
  rewrite Hdata. cbn [bind]. rewrite Hc. cbn [bind]. rewrite Hu.
  reflexivity.
Qed.

(** ** Transactions, once more *)

Lemma Forall2_nth_right {A B : Type} (R : A -> B -> Prop)
  (l : list A) (l' : list B) (i : nat) (y : B) :
  Forall2 R l l' -> nth_error l' i = Some y ->
  exists x, nth_error l i = Some x /\ R x y.
Proof.
  intro HF. revert i. induction HF as [|x0 y0 l l' H0 _ IH]; intros i Hn.
  - destruct i; discriminate.
  - destruct i as [|i]; simpl in Hn.
    + injection Hn as <-. exists x0. split; [reflexivity | assumption].
    + apply IH in Hn. exact Hn.
Qed.

(** All that a successful [get_transaction] has read and built. *)
Lemma get_transaction_built self id tx :
  get_transaction http_get self id = Ok tx ->
  exists r doc vin vout txins txouts value_in value_out fees,
    fetch_response http_get self "tx-details" id = Ok r
    /\ json_of true r = Ok doc
    /\ getitem_key doc "txid" = Ok (txid tx)
    /\ getitem_key doc "blockheight" = Ok (block tx)
    /\ getitem_key doc "valueIn" = Ok value_in
    /\ to_satoshi value_in = Ok (amount_in tx)
    /\ getitem_key doc "valueOut" = Ok value_out
    /\ to_satoshi value_out = Ok (amount_out tx)
    /\ getitem_key doc "fees" = Ok fees
    /\ to_satoshi fees = Ok (amount_fee tx)
    /\ getitem_key doc "vin" = Ok vin
    /\ py_iter vin = Ok txins
    /\ Forall2 (fun txin part => input_part txin = Ok part) txins (inputs tx)
    /\ getitem_key doc "vout" = Ok vout
    /\ py_iter vout = Ok txouts
    /\ Forall2 (fun txout part => output_part txout = Ok part)
         txouts (outputs tx).
Proof.
  intro H.
  destruct (fetch_response http_get self "tx-details" id) as [r|e] eqn:Hr;
    [|rewrite (get_transaction_fetch_failure _ _ _ Hr) in H; discriminate].
  rewrite (get_transaction_fetched _ _ _ Hr) in H. bind_inv H.
  apply fold_parts in E10. destruct E10 as (pin & Hin & ->).
  apply fold_parts in H. destruct H as (pout & Hout & ->).
  rewrite fold_add_output, fold_add_input. cbn.
  exists r, x, x8, x11, x9, x12, x2, x4, x6. repeat split; assumption.
Qed.

Lemma output_part_object (txout : value) (part : TxPart) :
  output_part txout = Ok part -> exists m, txout = VDict m.
Proof.
  unfold output_part. intro H. bind_inv H.
  apply getitem_key_dict in E. destruct E as (m & -> & _). eauto.
Qed.

Lemma input_part_object (txin : value) (part : TxPart) :
  input_part txin = Ok part -> exists m, txin = VDict m.
Proof.
  unfold input_part. intro H. bind_inv H.
  apply getitem_key_dict in E. destruct E as (m & -> & _). eauto.
Qed.

(** What the loops of [get_transaction] accept in the place of an array:
    only what they run over without a step. *)
Lemma iterated_objects (f : value -> result TxPart) (v : value)
  (items : list value) (parts : list TxPart) :
  (forall x part, f x = Ok part -> exists m, x = VDict m) ->
  py_iter v = Ok items ->
  Forall2 (fun x part => f x = Ok part) items parts ->
  v = VList items
  \/ (parts = [] /\ (v = VDict [] \/ v = VStr "")).
Proof.
  intros Hobj Hit HF.
  destruct v; try discriminate; cbn [py_iter] in Hit; injection Hit as <-.
  - right. destruct s as [|c s]; [inversion HF; auto|].
    cbn in HF. inversion HF as [|? ? ? ? Hx]; subst.
    apply Hobj in Hx. destruct Hx as (m & Hm). discriminate.
  - now left.
  - right. destruct m as [|[k x] m]; [inversion HF; auto|].
    cbn in HF. inversion HF as [|? ? ? ? Hx]; subst.
    apply Hobj in Hx. destruct Hx as (m' & Hm). discriminate.
Qed.

(** X10: each part of the transaction carries the fields of its entry: an
    input part the entry's [cashAddress], [value] and [scriptSig.asm] as
    they are, an output part the conversion of the entry's [value] and its
    [scriptPubKey.asm]. *)
Theorem get_transaction_part_fields self id r doc vin vout tx :
  fetch_response http_get self "tx-details" id = Ok r ->
  json_of true r = Ok doc ->
  getitem_key doc "vin" = Ok (VList vin) ->
  getitem_key doc "vout" = Ok (VList vout) ->
  get_transaction http_get self id = Ok tx ->
  Forall2 (fun txin part =>
             getitem_key txin "cashAddress" = Ok (address part)
             /\ getitem_key txin "value" = Ok (amount part)
             /\ (sig <- getitem_key txin "scriptSig" ;; getitem_key sig "asm")
                = Ok (asm part))
          vin (inputs tx)
  /\ Forall2 (fun txout part =>
                (v <- getitem_key txout "value" ;; to_satoshi v)
                = Ok (amount part)
                /\ (spk <- getitem_key txout "scriptPubKey" ;;
                    getitem_key spk "asm") = Ok (asm part))
             vout (outputs tx).
Proof.
  intros Hr Hdoc Hvin Hvout H.
  destruct (get_transaction_inv _ _ _ _ _ _ Hr Hdoc H)
    as (vi & vo & fe & vin' & vout' & txins & txouts
        & _ & _ & _ & _ & _ & _ & Hvin' & Hins & HFin & Hvout' & Houts & HFout).
  rewrite Hvin in Hvin'. injection Hvin' as <-.
  rewrite Hvout in Hvout'. injection Hvout' as <-.
  cbn in Hins, Houts. injection Hins as <-. injection Houts as <-.
  split.
  - eapply Forall2_impl; [|exact HFin]. intros txin part Hp.
    unfold input_part in Hp. bind_inv Hp. injection Hp as <-. cbn.
    rewrite E1. cbn [bind]. auto.
  - eapply Forall2_impl; [|exact HFout]. intros txout part Hp.
    unfold output_part in Hp. bind_inv Hp. injection Hp as <-. cbn.
    rewrite E2. cbn [bind]. rewrite E. cbn [bind]. rewrite E in E4.
    injection E4 as <-. auto.
Qed.

(** X11: [get_transaction] returns a transaction only if [vin] and [vout]
    are arrays, or things a loop runs over without a step: an empty object or
    an empty string, which then give no parts.  For [null], a number or a
    non-empty object it returns none. *)
Theorem get_transaction_needs_arrays self id tx :
  get_transaction http_get self id = Ok tx ->
  exists doc vin vout,
    get_raw_transaction http_get self id = Ok doc
    /\ getitem_key doc "vin" = Ok vin
    /\ getitem_key doc "vout" = Ok vout
    /\ ((exists l, vin = VList l)
        \/ (inputs tx = [] /\ (vin = VDict [] \/ vin = VStr "")))
    /\ ((exists l, vout = VList l)
        \/ (outputs tx = [] /\ (vout = VDict [] \/ vout = VStr ""))).
Proof.
  intro H. apply get_transaction_built in H.
  destruct H as (r & doc & vin & vout & txins & txouts & vi & vo & fe
                 & Hr & Hdoc & _ & _ & _ & _ & _ & _ & _ & _
                 & Hvin & Hiin & HFin & Hvout & Hiout & HFout).
  exists doc, vin, vout.
  rewrite get_raw_transaction_through_fetch, Hr. cbn [bind].
  split; [assumption|]. split; [assumption|]. split; [assumption|]. split.
  - destruct (iterated_objects input_part vin txins (inputs tx)
                input_part_object Hiin HFin) as [->|?]; eauto.
  - destruct (iterated_objects output_part vout txouts (outputs tx)
                output_part_object Hiout HFout) as [->|?]; eauto.
Qed.

(** ** Unspent outputs, once more *)

(** X12: for an empty [utxos] array [get_unspent] returns the empty list,
    whether or not the document has a [scriptPubKey]; for a non-empty one it
    raises when the document has none. *)
Theorem get_unspent_empty_and_missing_script self addr r data :
  fetch_response http_get self "unspent" addr = Ok r ->
  json_of false r = Ok data ->
  (getitem_key data "utxos" = Ok (VList []) ->
   get_unspent http_get currency_to_satoshi self addr = Ok [])
  /\ (forall tx rest e,
         getitem_key data "utxos" = Ok (VList (tx :: rest)) ->
         getitem_key data "scriptPubKey" = Raise e ->
         exists e', get_unspent http_get currency_to_satoshi self addr = Raise e').
Proof.
  intros Hr Hdata. rewrite (get_unspent_fetched _ _ _ Hr), Hdata. cbn [bind].
  split.
  - intro H. rewrite H. reflexivity.
  - intros tx rest e H He. rewrite H. cbn [bind py_iter mapM].
    rewrite He.
    destruct (getitem_key tx "amount") as [a|]; cbn [bind]; [|eauto].
    destruct (currency_to_satoshi a "bch"); cbn [bind]; [|eauto].
    destruct (getitem_key tx "confirmations"); cbn [bind]; eauto.
Qed.

(** X13: [get_unspent] returns one record for each entry of [utxos], in the
    order of the entries; its amount is what [currency_to_satoshi] makes of
    the entry's [amount] in the currency "bch", its confirmation count the
    entry's [confirmations] unchanged. *)
Theorem get_unspent_records self addr r data utxos us :
  fetch_response http_get self "unspent" addr = Ok r ->
  json_of false r = Ok data ->
  getitem_key data "utxos" = Ok (VList utxos) ->
  get_unspent http_get currency_to_satoshi self addr = Ok us ->
  List.length us = List.length utxos
  /\ Forall2 (fun tx u =>
                (a <- getitem_key tx "amount" ;; currency_to_satoshi a "bch")
                = Ok (u_amount u)
                /\ getitem_key tx "confirmations" = Ok (u_confirmations u))
             utxos us.
Proof.
  intros Hr Hdata Hutxos H.
  rewrite (get_unspent_fetched _ _ _ Hr), Hdata in H. cbn [bind] in H.
  rewrite Hutxos in H. cbn [bind py_iter] in H.
  apply mapM_Forall2 in H.
  split; [symmetry; eapply Forall2_length; exact H|].
  eapply Forall2_impl; [|exact H].
  intros tx u Hu. cbn in Hu. bind_inv Hu. injection Hu as <-. cbn.
  rewrite E. cbn [bind]. auto.
Qed.

End ClientBehaviour.

(** ** Two requests for one transaction

    [get_transaction], [get_raw_transaction] and [get_tx_amount] each send a
    request of their own.  The network may answer the second request
    otherwise than the first, so the two calls take a network each, and what
    they have in common is said of the responses. *)

(** X8: what [get_transaction] returns agrees with what
    [get_raw_transaction] returns for the same id when the request of the
    latter is answered, without an error status, with the body the request
    of the former was answered with: the latter succeeds with the decoded
    document, the id and the block height of the transaction are the
    document's [txid] and [blockheight] unchanged, and the three totals are
    the conversions of [valueIn], [valueOut] and [fees]. *)
Theorem get_transaction_agrees_with_raw
  (http_get http_get' : string -> option Z -> result response)
  self id r r' tx :
  fetch_response http_get self "tx-details" id = Ok r ->
  get_transaction http_get self id = Ok tx ->
  fetch_response http_get' self "tx-details" id = Ok r' ->
  body r' = body r ->
  exists doc value_in value_out fees,
    get_raw_transaction http_get' self id = Ok doc
    /\ getitem_key doc "txid" = Ok (txid tx)
    /\ getitem_key doc "blockheight" = Ok (block tx)
    /\ getitem_key doc "valueIn" = Ok value_in
    /\ to_satoshi value_in = Ok (amount_in tx)
    /\ getitem_key doc "valueOut" = Ok value_out
    /\ to_satoshi value_out = Ok (amount_out tx)
    /\ getitem_key doc "fees" = Ok fees
    /\ to_satoshi fees = Ok (amount_fee tx).
Proof.
  intros Hr0 H Hr' Hbody. apply get_transaction_built in H.
  destruct H as (r1 & doc & vin & vout & txins & txouts & vi & vo & fe
                 & Hr & Hdoc & Hid & Hbl & Hvi & Hai & Hvo & Hao & Hfe & Haf & _).
  rewrite Hr0 in Hr. injection Hr as <-.
  exists doc, vi, vo, fe.
  rewrite get_raw_transaction_through_fetch, Hr'. cbn [bind].
  unfold json_of in Hdoc |- *. rewrite Hbody.
  repeat split; assumption.
Qed.

(** X9: the amount [get_tx_amount] returns for an output index is the
    amount [get_transaction] gives the output part at that index, when the
    request of [get_tx_amount] is answered, without an error status, with
    the body the request of [get_transaction] was answered with. *)
Theorem get_tx_amount_agrees_with_get_transaction
  (http_get http_get' : string -> option Z -> result response)
  self id r r' tx i part :
  fetch_response http_get self "tx-details" id = Ok r ->
  get_transaction http_get self id = Ok tx ->
  nth_error (outputs tx) i = Some part ->
  fetch_response http_get' self "tx-details" id = Ok r' ->
  body r' = body r ->
  get_tx_amount http_get' self id (Z.of_nat i) = Ok (amount part).
Proof.
  intros Hr0 H Hn Hr' Hbody. apply get_transaction_built in H.
  destruct H as (r1 & doc & vin & vout & txins & txouts & vi & vo & fe
                 & Hr & Hdoc & _ & _ & _ & _ & _ & _ & _ & _ & _ & _ & _
                 & Hvout & Hit & HF).
  rewrite Hr0 in Hr. injection Hr as <-.
  assert (Hdoc' : json_of true r' = Ok doc)
    by (unfold json_of in Hdoc |- *; now rewrite Hbody).
  destruct (Forall2_nth_right _ _ _ _ _ HF Hn) as (txout & Hnt & Hp).
  destruct (iterated_objects output_part vout txouts (outputs tx)
              output_part_object Hit HF) as [->|[Hnil _]];
    [|rewrite Hnil in Hn; destruct i; discriminate].
  rewrite (get_tx_amount_fetched http_get' _ _ _ _ _ (Z.of_nat i) Hr' Hdoc' Hvout).
  assert (Hi : 0 <= Z.of_nat i < Z.of_nat (List.length txouts)).
  { assert (i < List.length txouts)%nat
      by (apply nth_error_Some; rewrite Hnt; discriminate).
    lia. }
  destruct (list_index_within txouts (Z.of_nat i) Hi) as (-> & _).
  rewrite Nat2Z.id, Hnt.
  apply output_part_amount in Hp. destruct Hp as (v & Hv & Ha).
  rewrite Hv. exact Ha.
Qed.

(** ** Request URLs *)

Lemma list_ascii_app (a b : string) :
  list_ascii_of_string (a ++ b)
  = list_ascii_of_string a ++ list_ascii_of_string b.
Proof. induction a as [|c a IH]; cbn; [reflexivity | now rewrite IH]. Qed.

Lemma str_app_empty (s : string) : (s ++ "")%string = s.
Proof. induction s as [|c s IH]; cbn; [reflexivity | now rewrite IH]. Qed.

Lemma str_app_assoc (a b c : string) :
  ((a ++ b) ++ c)%string = (a ++ (b ++ c))%string.
Proof. induction a as [|x a IH]; cbn; [reflexivity | now rewrite IH]. Qed.

Lemma str_app_inj_l (a b c : string) :
  (a ++ b)%string = (a ++ c)%string -> b = c.
Proof.
  induction a as [|x a IH]; cbn; intro H; [assumption|].
  injection H as H. auto.
Qed.

(** Text without braces goes into the result as it is. *)
Lemma format_text (s : string) (rest : list ascii) (num : numbering)
  (arg : string) :
  brace_free s = true ->
  format_from FText num arg (list_ascii_of_string s ++ rest)
  = (r <- format_from FText num arg rest ;; Ok (s ++ r)%string).
Proof.
  unfold brace_free. induction s as [|c s IH]; cbn [list_ascii_of_string forallb app].
  - intros _. now destruct (format_from FText num arg rest).
  - intro H. apply andb_prop in H. destruct H as [Hc Hs].
    apply andb_prop in Hc. destruct Hc as [H1 H2].
    apply negb_true_iff in H1, H2.
    cbn [format_from]. rewrite H1, H2, (IH Hs).
    now destruct (format_from FText num arg rest).
Qed.

(** A template of text without braces and one slot at its end. *)
Lemma format_one_slot (text arg : string) :
  brace_free text = true ->
  format (text ++ "{}") arg = Ok (text ++ arg)%string.
Proof.
  intro H. unfold format. rewrite list_ascii_app, (format_text _ _ _ _ H).
  cbn. now rewrite str_app_empty.
Qed.

Lemma brace_free_app (a b : string) :
  brace_free a = true -> brace_free b = true -> brace_free (a ++ b) = true.
Proof.
  unfold brace_free. intros Ha Hb.
  now rewrite list_ascii_app, forallb_app, Ha, Hb.
Qed.

(** The four requests on an endpoint without braces. *)
Lemma request_url_cases (self : BitcoinDotComAPI) (path arg url : string) :
  brace_free (network_endpoint self) = true ->
  request_url self path arg = Ok url ->
  exists prefix,
    In (path, prefix)
       [ ("unspent", "address/utxo/"); ("address", "address/details/");
         ("raw-tx", "rawtransactions/sendRawTransaction/");
         ("tx-details", "transaction/details/") ]
    /\ url = (network_endpoint self ++ prefix ++ arg)%string.
Proof.
  intros Hb H. unfold request_url, make_endpoint_url in H.
  assert (Hf : forall prefix,
             brace_free prefix = true ->
             format (network_endpoint self ++ prefix ++ "{}") arg
             = Ok (network_endpoint self ++ prefix ++ arg)%string).
  { intros prefix Hp. rewrite <- !str_app_assoc.
    apply format_one_slot. now apply brace_free_app. }
  cbn [dict_get PATHS] in H.
  destruct (String.eqb path "unspent") eqn:E1.
  { apply String.eqb_eq in E1. subst path. cbn [bind] in H.
    change (format (network_endpoint self ++ "address/utxo/" ++ "{}") arg = Ok url) in H.
    rewrite (Hf "address/utxo/" eq_refl) in H. injection H as <-.
    exists "address/utxo/". cbn. auto. }
  destruct (String.eqb path "address") eqn:E2.
  { apply String.eqb_eq in E2. subst path. cbn [bind] in H.
    change (format (network_endpoint self ++ "address/details/" ++ "{}") arg = Ok url) in H.
    rewrite (Hf "address/details/" eq_refl) in H. injection H as <-.
    exists "address/details/". cbn. auto. }
  destruct (String.eqb path "raw-tx") eqn:E3.
  { apply String.eqb_eq in E3. subst path. cbn [bind] in H.
    change (format (network_endpoint self ++ "rawtransactions/sendRawTransaction/" ++ "{}") arg = Ok url) in H.
    rewrite (Hf "rawtransactions/sendRawTransaction/" eq_refl) in H.
    injection H as <-.
    exists "rawtransactions/sendRawTransaction/". cbn. auto. }
  destruct (String.eqb path "tx-details") eqn:E4; [|discriminate].
  apply String.eqb_eq in E4. subst path. cbn [bind] in H.
  change (format (network_endpoint self ++ "transaction/details/" ++ "{}") arg = Ok url) in H.
    rewrite (Hf "transaction/details/" eq_refl) in H. injection H as <-.
  exists "transaction/details/". cbn. auto 6.
Qed.

(** X14: on an endpoint that holds no brace, the URL of a request is the
    endpoint, the path of the operation and the argument, one after the
    other; the argument goes in as it is, without any encoding. *)
Theorem request_url_is_verbatim (self : BitcoinDotComAPI) (arg : string) :
  brace_free (network_endpoint self) = true ->
  request_url self "unspent" arg
  = Ok (network_endpoint self ++ "address/utxo/" ++ arg)%string
  /\ request_url self "address" arg
     = Ok (network_endpoint self ++ "address/details/" ++ arg)%string
  /\ request_url self "raw-tx" arg
     = Ok (network_endpoint self
           ++ "rawtransactions/sendRawTransaction/" ++ arg)%string
  /\ request_url self "tx-details" arg
     = Ok (network_endpoint self ++ "transaction/details/" ++ arg)%string.
Proof.
  intro Hb.
  assert (Hf : forall prefix,
             brace_free prefix = true ->
             format (network_endpoint self ++ prefix ++ "{}") arg
             = Ok (network_endpoint self ++ prefix ++ arg)%string).
  { intros prefix Hp. rewrite <- !str_app_assoc.
    apply format_one_slot. now apply brace_free_app. }
  split; [|split; [|split]].
  - exact (Hf "address/utxo/" eq_refl).
  - exact (Hf "address/details/" eq_refl).
  - exact (Hf "rawtransactions/sendRawTransaction/" eq_refl).
  - exact (Hf "transaction/details/" eq_refl).
Qed.

(** X15: on an endpoint that holds no brace, two requests have the same URL
    only if they are for the same path key with the same argument. *)
Theorem request_urls_are_distinct (self : BitcoinDotComAPI)
  (path path' arg arg' url : string) :
  brace_free (network_endpoint self) = true ->
  request_url self path arg = Ok url ->
  request_url self path' arg' = Ok url ->
  path = path' /\ arg = arg'.
Proof.
  intros Hb H H'.
  destruct (request_url_cases self path arg url Hb H) as (p & Hin & Hu).
  destruct (request_url_cases self path' arg' url Hb H') as (p' & Hin' & Hu').
  rewrite Hu in Hu'. apply str_app_inj_l in Hu'.
  cbn [In] in Hin, Hin'.
  destruct Hin as [Hp|[Hp|[Hp|[Hp|[]]]]]; injection Hp as <- <-;
    destruct Hin' as [Hp'|[Hp'|[Hp'|[Hp'|[]]]]]; injection Hp' as <- <-;
    cbn in Hu'; try discriminate Hu';
    (split; [reflexivity|]); congruence.
Qed.

(** ** Endpoints *)

Lemma init_ok_string (v : value) (c : BitcoinDotComAPI) :
  init v = Ok c ->
  v = VStr (network_endpoint c)
  /\ String.eqb (slice_to 4 (network_endpoint c)) "http" = true
  /\ String.eqb (slice_last 4 (network_endpoint c)) "/v2/" = true.
Proof.
  intro H. destruct v as [| | | | |s| |]; try discriminate H.
  rewrite init_str in H.
  destruct (String.eqb (slice_to 4 s) "http") eqn:E1; [|discriminate H].
  destruct (String.eqb (slice_last 4 s) "/v2/") eqn:E2; [|discriminate H].
  injection H as <-. cbn [network_endpoint]. auto.
Qed.

Lemma valid_url_length (s : string) :
  String.eqb (slice_to 4 s) "http" = true ->
  String.eqb (slice_last 4 s) "/v2/" = true ->
  (8 <= String.length s)%nat.
Proof.
  intros H1 H2. apply String.eqb_eq in H1, H2.
  destruct s as [|a [|b [|c [|d [|e [|f [|g [|h r]]]]]]]];
    cbn in H1, H2; try congruence.
  cbn. lia.
Qed.

(** X16: a client that has been constructed holds the string it was given,
    unchanged; that string starts with "http", ends with "/v2/" and has at
    least eight characters, and every URL the client makes starts with
    "http". *)
Theorem constructed_client_invariant (v : value) (c : BitcoinDotComAPI) :
  init v = Ok c ->
  v = VStr (network_endpoint c)
  /\ starts_with "http" (network_endpoint c)
  /\ ends_with "/v2/" (network_endpoint c)
  /\ (8 <= String.length (network_endpoint c))%nat
  /\ (forall path url,
         make_endpoint_url c path = Ok url -> starts_with "http" url).
Proof.
  intro H. apply init_ok_string in H. destruct H as (Hv & H1 & H2).
  split; [assumption|].
  split; [now apply slice_to_http|].
  split; [now apply slice_last_v2|].
  split; [now apply valid_url_length|].
  intros path url Hu. unfold make_endpoint_url in Hu.
  destruct (dict_get path PATHS) as [template|]; [|discriminate].
  injection Hu as <-.
  apply slice_to_http in H1. destruct H1 as (rest & ->).
  exists (rest ++ template)%string. now rewrite str_app_assoc.
Qed.

(** X17: [get_default_endpoint] knows exactly the networks "mainnet",
    "testnet" and "regtest": for each of the three it returns an endpoint,
    for every other name it raises [KeyError]; each endpoint it returns
    passes the checks of the constructor and holds no brace. *)
Theorem default_endpoints_are_valid (network : string) :
  (forall url,
      get_default_endpoint network = Ok url ->
      In network ["mainnet"; "testnet"; "regtest"]
      /\ init (VStr url) = Ok (mkAPI url)
      /\ brace_free url = true)
  /\ (In network ["mainnet"; "testnet"; "regtest"] ->
      exists url,
        get_default_endpoint network = Ok url
        /\ init (VStr url) = Ok (mkAPI url)
        /\ brace_free url = true)
  /\ (~ In network ["mainnet"; "testnet"; "regtest"] ->
      get_default_endpoint network = Raise KeyError).
Proof.
  unfold get_default_endpoint. cbn [dict_get DEFAULT_ENDPOINTS].
  destruct (String.eqb network "mainnet") eqn:E1.
  { apply String.eqb_eq in E1. subst network. split; [|split].
    - intros url H. injection H as <-. cbn [In]. repeat split; auto.
    - intros _. eexists. repeat split.
    - intro H. exfalso. apply H. cbn. auto. }
  destruct (String.eqb network "testnet") eqn:E2.
  { apply String.eqb_eq in E2. subst network. split; [|split].
    - intros url H. injection H as <-. cbn [In]. repeat split; auto.
    - intros _. eexists. repeat split.
    - intro H. exfalso. apply H. cbn. auto. }
  destruct (String.eqb network "regtest") eqn:E3.
  { apply String.eqb_eq in E3. subst network. split; [|split].
    - intros url H. injection H as <-. cbn [In]. repeat split; auto.
    - intros _. eexists. repeat split.
    - intro H. exfalso. apply H. cbn. auto. }
  apply String.eqb_neq in E1, E2, E3.
  split; [discriminate|]. split; [|reflexivity].
  cbn [In]. intros [H|[H|[H|[]]]]; congruence.
Qed.

(** ** The conversion, once more *)

Lemma ndigits_div10 (c : Z) : 10 <= c -> ndigits (c / 10) = ndigits c - 1.
Proof.
  intro Hc. destruct (ndigits_spec c ltac:(lia)) as [[Hlo Hhi] H1].
  assert (H2 : 2 <= ndigits c).
  { destruct (Z.le_gt_cases 2 (ndigits c)) as [|Hlt]; [assumption|].
    replace (ndigits c) with 1 in Hhi by lia. simpl in Hhi. lia. }
  assert (HA : 10 ^ (ndigits c - 1) = 10 ^ (ndigits c - 2) * 10).
  { replace (ndigits c - 1) with (ndigits c - 2 + 1) by lia.
    now rewrite pow10_split by lia. }
  assert (HB : 10 ^ ndigits c = 10 ^ (ndigits c - 1) * 10).
  { replace (ndigits c) with (ndigits c - 1 + 1) at 1 by lia.
    now rewrite pow10_split by lia. }
  apply ndigits_unique.
  - apply Z.div_str_pos. lia.
  - replace (ndigits c - 1 - 1) with (ndigits c - 2) by lia. split.
    + apply Z.div_le_lower_bound; lia.
    + apply Z.div_lt_upper_bound; lia.
Qed.

(** With fuel for every digit, stripping ends on a coefficient that does not
    end in zero. *)
Lemma strip_zeros_normal (fuel : nat) (c e c' e' : Z) :
  0 < c -> ndigits c <= Z.of_nat fuel -> ndigits c + e <= Emax + 1 ->
  strip_zeros fuel c e = (c', e') ->
  0 < c' /\ c' mod 10 <> 0.
Proof.
  revert c e. induction fuel as [|f IH]; intros c e Hc Hf Hb H.
  - destruct (ndigits_spec c Hc) as [_ H1]. simpl in Hf. lia.
  - cbn [strip_zeros] in H.
    destruct (c mod 10 =? 0) eqn:Em; cbn [andb] in H.
    + apply Z.eqb_eq in Em.
      destruct (e <? Emax) eqn:Ee.
      * assert (H10 : 10 <= c).
        { rewrite (Z.div_mod c 10) by lia. rewrite Em.
          assert (0 < c / 10); [|lia].
          destruct (Z.le_gt_cases (c / 10) 0) as [Hle|]; [|assumption].
          rewrite (Z.div_mod c 10) in Hc by lia. lia. }
        apply IH in H; [assumption| | |].
        -- apply Z.div_str_pos. lia.
        -- rewrite ndigits_div10 by assumption. lia.
        -- rewrite ndigits_div10 by assumption. lia.
      * apply Z.ltb_ge in Ee. injection H as <- <-.
        destruct (ndigits_spec c Hc) as [[_ Hhi] H1].
        replace (ndigits c) with 1 in Hhi by lia. simpl in Hhi.
        rewrite Z.mod_small in Em by lia. lia.
    + apply Z.eqb_neq in Em. injection H as <- <-. auto.
Qed.

(** What [fix_] returns for a finite number: the same sign, a coefficient
    that is not negative and, unless it is zero, an adjusted exponent within
    [Emax]. *)
Lemma fix_fin_shape (s : bool) (c e : Z) (d : decimal) :
  0 <= c -> fix_ (Fin s c e) = Ok d ->
  exists c' e',
    d = Fin s c' e' /\ 0 <= c'
    /\ (0 < c' -> ndigits c' + e' <= Emax + 1).
Proof.
  intros Hc H. unfold fix_ in H.
  destruct (c =? 0) eqn:E0.
  { injection H as <-. eexists _, _. split; [reflexivity|]. lia. }
  apply Z.eqb_neq in E0.
  destruct (Etop <? ndigits c + e - prec) eqn:E1; [discriminate|].
  apply Z.ltb_ge in E1.
  destruct (e <? Z.max (ndigits c + e - prec) Etiny) eqn:E2.
  - apply Z.ltb_lt in E2.
    set (exp_min := Z.max (ndigits c + e - prec) Etiny) in *.
    set (k := exp_min - e) in *.
    assert (Hk : 0 < k) by (unfold k; lia).
    pose proof (pow10_pos k ltac:(lia)) as Hpk.
    assert (Hq : 0 <= c / 10 ^ k < 10 ^ prec).
    { split; [apply Z.div_pos; lia|].
      apply Z.div_lt_upper_bound; [lia|].
      destruct (ndigits_spec c ltac:(lia)) as [[_ Hhi] _].
      rewrite Z.mul_comm, <- pow10_split by (unfold prec; lia).
      eapply Z.lt_le_trans; [exact Hhi|].
      apply Z.pow_le_mono_r; [lia|]. unfold k, exp_min. lia. }
    assert (Hr : 0 <= round_half_even c k <= 10 ^ prec).
    { unfold round_half_even.
      destruct ((5 * 10 ^ (k - 1) <? c mod 10 ^ k)
                || (c mod 10 ^ k =? 5 * 10 ^ (k - 1)) && Z.odd (c / 10 ^ k));
        lia. }
    set (coeff := round_half_even c k) in *.
    destruct (prec <? ndigits coeff) eqn:E3.
    + apply Z.ltb_lt in E3.
      destruct (Etop <? exp_min + 1) eqn:E4; [discriminate|].
      apply Z.ltb_ge in E4. injection H as <-.
      assert (Hpos : 0 < coeff).
      { destruct (Z.eq_dec coeff 0) as [Hz|]; [|lia].
        rewrite Hz in E3. vm_compute in E3. discriminate. }
      eexists _, _. split; [reflexivity|].
      split; [apply Z.div_pos; lia|]. intro Hp.
      assert (ndigits (coeff / 10) <= prec); [|unfold Etop in E4; lia].
      apply ndigits_below; [assumption | unfold prec; lia |].
      apply Z.div_lt_upper_bound; [lia|].
      change (10 * 10 ^ prec) with (10 ^ 29). unfold prec in Hr.
      assert (10 ^ 28 < 10 ^ 29) by reflexivity. lia.
    + apply Z.ltb_ge in E3.
      destruct (Etop <? exp_min) eqn:E4; [discriminate|].
      apply Z.ltb_ge in E4. injection H as <-.
      eexists _, _. split; [reflexivity|]. split; [lia|].
      intros _. unfold Etop in E4. lia.
  - injection H as <-. eexists _, _. split; [reflexivity|]. split; [lia|].
    intros _. unfold Etop in E1. lia.
Qed.

Lemma normalize_fin_shape (s : bool) (c e : Z) (d : decimal) :
  0 <= c -> normalize (Fin s c e) = Ok d ->
  exists c' e',
    d = Fin s c' e' /\ ((c' = 0 /\ e' = 0) \/ (0 < c' /\ c' mod 10 <> 0)).
Proof.
  intros Hc H. unfold normalize in H. bind_inv H.
  apply fix_fin_shape in E; [|assumption].
  destruct E as (c1 & e1 & -> & Hc1 & Hb).
  destruct (c1 =? 0) eqn:E0.
  - injection H as <-. eexists _, _. split; [reflexivity|]. now left.
  - apply Z.eqb_neq in E0.
    destruct (strip_zeros (Z.to_nat (ndigits c1)) c1 e1) as [c' e'] eqn:Es.
    injection H as <-. eexists _, _. split; [reflexivity|]. right.
    destruct (ndigits_spec c1 ltac:(lia)) as [_ H1].
    apply (strip_zeros_normal (Z.to_nat (ndigits c1)) c1 e1 c' e');
      [lia | rewrite Z2Nat.id; lia | apply Hb; lia | assumption].
Qed.

(** X18: the conversion keeps the sign of the amount and gives a Decimal in
    normal form: zero with exponent zero, or a coefficient that does not end
    in the digit 0, so that whole coins come out with a positive exponent. *)
Theorem to_satoshi_is_normalized (v : value) (s0 s : bool) (c0 e0 c e : Z) :
  Decimal v = Ok (Fin s0 c0 e0) -> 0 <= c0 ->
  to_satoshi v = Ok (VDec (Fin s c e)) ->
  s = s0 /\ ((c = 0 /\ e = 0) \/ (0 < c /\ c mod 10 <> 0)).
Proof.
  intros Hv Hc H. unfold to_satoshi in H. rewrite Hv in H. cbn [bind] in H.
  change (of_int BCH_TO_SAT_MULTIPLIER) with (Fin false (10 ^ 8) 0) in H.
  cbn [mul] in H. rewrite xorb_false_r in H. bind_inv H.
  injection H as ->.
  apply fix_fin_shape in E; [|lia]. destruct E as (c1 & e1 & -> & Hc1 & _).
  apply normalize_fin_shape in E0; [|assumption].
  destruct E0 as (c' & e' & Heq & Hn). injection Heq as -> -> ->. auto.
Qed.

(** X19: a fraction below the smallest unit is neither rounded nor cut off:
    an amount with more than eight fractional digits that is no whole number
    of the smallest unit converts to a Decimal that is no whole number. *)
Theorem to_satoshi_keeps_fraction (v : value) (s : bool) (c e : Z) :
  Decimal v = Ok (Fin s c e) ->
  0 < c < 10 ^ 20 -> Etiny <= e < -8 ->
  c mod 10 ^ (- e - 8) <> 0 ->
  exists d, to_satoshi v = Ok (VDec d) /\ is_integral d = false.
Proof.
  intros Hv Hc He Hm.
  assert (Hp : 0 < c * 10 ^ 8) by lia.
  assert (Hn : ndigits (c * 10 ^ 8) <= prec).
  { apply ndigits_below; [assumption | unfold prec; lia |].
    change (10 ^ prec) with (10 ^ 20 * 10 ^ 8). lia. }
  assert (HE : Etiny <= e <= Etop) by (unfold Etop, Emax, prec; lia).
  destruct (normalize_fin s _ e Hp Hn HE) as (c' & e' & Hnorm & Hle & Hval & Hpos).
  exists (Fin s c' e'). split.
  - unfold to_satoshi. rewrite Hv. cbn [bind].
    change (of_int BCH_TO_SAT_MULTIPLIER) with (Fin false (10 ^ 8) 0).
    cbn [mul]. rewrite xorb_false_r, Z.add_0_r.
    rewrite (fix_small s _ e Hp Hn HE). cbn [bind]. now rewrite Hnorm.
  - unfold is_integral. apply orb_false_iff.
    pose proof (pow10_pos (- e - 8) ltac:(lia)) as Hp8.
    assert (H8 : 10 ^ (- e) = 10 ^ 8 * 10 ^ (- e - 8)).
    { rewrite <- pow10_split by lia. f_equal; lia. }
    assert (Hneg : e' < 0).
    { destruct (Z.lt_ge_cases e' 0) as [|Hge]; [assumption|].
      exfalso. apply Hm.
      assert (Hs : 10 ^ (e' - e) = 10 ^ e' * 10 ^ (- e)).
      { rewrite <- pow10_split by lia. f_equal; lia. }
      rewrite Hs, H8 in Hval.
      assert (Hc' : c = c' * 10 ^ e' * 10 ^ (- e - 8)).
      { apply Z.mul_reg_r with (p := 10 ^ 8); [lia|]. rewrite <- Hval. ring. }
      rewrite Hc'. apply Z.mod_mul. lia. }
    split; [now apply Z.leb_gt|].
    apply Z.eqb_neq. intro Hz. apply Hm.
    pose proof (pow10_pos (- e') ltac:(lia)) as Hpe.
    pose proof (pow10_pos (e' - e) ltac:(lia)) as Hpd.
    assert (Hd : c' = c' / 10 ^ (- e') * 10 ^ (- e')).
    { rewrite (Z.div_mod c' (10 ^ (- e'))) at 1 by lia. lia. }
    assert (Hs : 10 ^ (- e) = 10 ^ (- e') * 10 ^ (e' - e)).
    { rewrite <- pow10_split by lia. f_equal; lia. }
    assert (Hc' : c = c' / 10 ^ (- e') * 10 ^ (- e - 8)).
    { apply Z.mul_reg_r with (p := 10 ^ 8); [lia|].
      rewrite <- Hval. rewrite Hd at 1.
      rewrite <- !Z.mul_assoc, <- Hs, H8. ring. }
    rewrite Hc'. apply Z.mod_mul. lia.
Qed.

(** X20: a whole number of coins of at most 28 digits, as a JSON integer
    gives it, converts to a Decimal equal to that number times 10^8. *)
Theorem to_satoshi_of_integer (n : Z) :
  Z.abs n < 10 ^ 28 ->
  exists d,
    to_satoshi (VInt n) = Ok (VDec d)
    /\ eq_int d (n * 10 ^ 8) = true
    /\ is_integral d = true.
Proof.
  intro Hn.
  destruct (to_satoshi_fin (VInt n) (n <? 0) (Z.abs n) 0 eq_refl)
    as (d & Hd & He & Hi); try lia.
  exists d. split; [assumption|]. split; [|assumption].
  replace (n * 10 ^ 8) with (signed (n <? 0) (Z.abs n) * 10 ^ (8 + 0));
    [assumption|].
  f_equal. unfold signed. destruct (n <? 0) eqn:E.
  - apply Z.ltb_lt in E. lia.
  - apply Z.ltb_ge in E. lia.
Qed.

(** X21: a JSON number is converted from its text, not from a binary
    float: written with at most 8 fractional digits and at most 28
    significant digits and decoded with [parse_float=Decimal], it converts
    exactly, to the same Decimal as the JSON string of the same text. *)
Theorem json_number_converts_exactly (neg : bool) (ip fp : list ascii) :
  forallb is_digit ip = true -> forallb is_digit fp = true ->
  ip ++ fp <> [] ->
  (List.length fp <= 8)%nat ->
  digits_value (ip ++ fp) < 10 ^ 28 ->
  exists v d,
    loads true (JReal (numeral neg ip fp)) = Ok v
    /\ to_satoshi v = Ok (VDec d)
    /\ to_satoshi (VStr (numeral neg ip fp)) = Ok (VDec d)
    /\ eq_int d (signed neg (digits_value (ip ++ fp))
                 * 10 ^ (8 - Z.of_nat (List.length fp))) = true.
Proof.
  intros Hip Hfp Hne Hlen Hprec.
  assert (Hds : forallb is_digit (ip ++ fp) = true)
    by (rewrite forallb_app, Hip, Hfp; reflexivity).
  pose proof (digits_value_nonneg _ Hds) as Hnn.
  assert (Hcon : constructible (digits_value (ip ++ fp))
                   (- Z.of_nat (List.length fp)) = true)
    by (apply constructible_bounded with (n := 28); lia).
  pose proof (of_string_numeral neg ip fp Hip Hfp Hne Hcon) as Hparse.
  destruct (to_satoshi_fin (VStr (numeral neg ip fp)) neg
              (digits_value (ip ++ fp)) (- Z.of_nat (List.length fp)))
    as (d & Hd & Heq & _); [exact Hparse | lia | lia |].
  eexists _, d. cbn [loads]. rewrite Hparse. cbn [bind].
  split; [reflexivity|].
  split; [|split; [assumption|]].
  - unfold to_satoshi in Hd |- *. cbn [Decimal] in Hd |- *.
    now rewrite Hparse in Hd.
  - replace (8 - Z.of_nat (List.length fp))
      with (8 + - Z.of_nat (List.length fp)) by lia.
    exact Heq.
Qed.

(** X22: an amount that is no finite number is not rejected: infinity
    converts to infinity and a quiet NaN to a NaN, neither of them a whole
    number; only a signalling NaN raises [InvalidOperation]. *)
Theorem to_satoshi_of_special (v : value) (s : bool) :
  (Decimal v = Ok (Inf s) -> to_satoshi v = Ok (VDec (Inf s)))
  /\ (forall diag,
         Decimal v = Ok (NaN s false diag) ->
         to_satoshi v = Ok (VDec (NaN s false (diag mod 10 ^ prec))))
  /\ (forall diag,
         Decimal v = Ok (NaN s true diag) ->
         to_satoshi v = Raise InvalidOperation).
Proof.
  unfold to_satoshi. split; [|split].
  - intro H. rewrite H. cbn. now destruct s.
  - intros diag H. rewrite H. cbn [bind].
    change (of_int BCH_TO_SAT_MULTIPLIER) with (Fin false (10 ^ 8) 0).
    cbn [mul fix_ bind normalize].
    rewrite Z.mod_mod by (apply Z.pow_nonzero; unfold prec; lia).
    reflexivity.
  - intros diag H. rewrite H. reflexivity.
Qed.


(** ** Indices, fields and endpoints at the edge *)

Lemma format_second_slot (pre post arg : string) :
  brace_free pre = true -> brace_free post = true ->
  format (pre ++ "{}" ++ post ++ "{}") arg = Raise IndexError.
Proof.
  intros Hpre Hpost. unfold format.
  rewrite list_ascii_app, (format_text _ _ _ _ Hpre).
  cbn [append list_ascii_of_string format_from Ascii.eqb Bool.eqb].
  rewrite list_ascii_app, (format_text _ _ _ _ Hpost). reflexivity.
Qed.

Lemma request_url_second_slot (self : BitcoinDotComAPI)
  (pre post path arg : string) :
  network_endpoint self = (pre ++ "{}" ++ post)%string ->
  brace_free pre = true -> brace_free post = true ->
  In path ["unspent"; "address"; "raw-tx"; "tx-details"] ->
  request_url self path arg = Raise IndexError.
Proof.
  intros He Hpre Hpost Hin.
  assert (Hf : forall prefix,
             brace_free prefix = true ->
             format (network_endpoint self ++ prefix ++ "{}") arg
             = Raise IndexError).
  { intros prefix Hp. rewrite He.
    rewrite !str_app_assoc. rewrite <- (str_app_assoc post prefix "{}").
    apply format_second_slot; [assumption|]. now apply brace_free_app. }
  cbn [In] in Hin. destruct Hin as [<-|[<-|[<-|[<-|[]]]]].
  - exact (Hf "address/utxo/" eq_refl).
  - exact (Hf "address/details/" eq_refl).
  - exact (Hf "rawtransactions/sendRawTransaction/" eq_refl).
  - exact (Hf "transaction/details/" eq_refl).
Qed.

Section ClientEdges.

Variable http_get : string -> option Z -> result response.
Variable currency_to_satoshi : value -> string -> result Z.

(** X24: below zero [get_tx_amount] counts the index from the end of the
    [vout] array, as Python does: [-1] is the last output; an index below
    minus the length raises [IndexError]. *)
Theorem get_tx_amount_counts_from_end self id r doc vout i :
  fetch_response http_get self "tx-details" id = Ok r ->
  json_of true r = Ok doc ->
  getitem_key doc "vout" = Ok (VList vout) ->
  i < 0 ->
  (- Z.of_nat (List.length vout) <= i ->
   exists txout,
     nth_error vout (Z.to_nat (i + Z.of_nat (List.length vout))) = Some txout
     /\ get_tx_amount http_get self id i
        = (v <- getitem_key txout "value" ;; to_satoshi v))
  /\ (i < - Z.of_nat (List.length vout) ->
      get_tx_amount http_get self id i = Raise IndexError).
Proof.
  intros Hr Hdoc Hvout Hi.
  rewrite (get_tx_amount_fetched http_get _ _ _ _ _ i Hr Hdoc Hvout).
  unfold list_index.
  destruct (i <? 0) eqn:E1; [|apply Z.ltb_ge in E1; lia].
  split; intro Hn.
  - destruct (0 <=? i + Z.of_nat (List.length vout)) eqn:E2;
      [|apply Z.leb_gt in E2; lia].
    destruct (i + Z.of_nat (List.length vout) <? Z.of_nat (List.length vout))
      eqn:E3; [|apply Z.ltb_ge in E3; lia].
    cbn [andb].
    destruct (nth_error vout (Z.to_nat (i + Z.of_nat (List.length vout))))
      as [txout|] eqn:En.
    + exists txout. split; reflexivity.
    + apply nth_error_None in En. lia.
  - destruct (0 <=? i + Z.of_nat (List.length vout)) eqn:E2;
      [apply Z.leb_le in E2; lia | reflexivity].
Qed.

(** X25: [get_balance] does not check what it adds: two texts are joined
    one after the other, and a whole number with a text, [null] or an object
    raises [TypeError]. *)
Theorem get_balance_of_other_values self addr r data confirmed unconfirmed :
  fetch_response http_get self "address" addr = Ok r ->
  json_of false r = Ok data ->
  getitem_key data "balanceSat" = Ok confirmed ->
  getitem_key data "unconfirmedBalanceSat" = Ok unconfirmed ->
  (forall a b,
      confirmed = VStr a -> unconfirmed = VStr b ->
      get_balance http_get self addr = Ok (VStr (a ++ b)))
  /\ (forall n,
         confirmed = VInt n ->
         (exists b, unconfirmed = VStr b) \/ unconfirmed = VNone
         \/ (exists m, unconfirmed = VDict m) ->
         get_balance http_get self addr = Raise TypeError).
Proof.
  intros Hr Hdata Hc Hu.
  assert (Hb : get_balance http_get self addr = py_add confirmed unconfirmed).
  { unfold get_balance. apply fetch_response_inv in Hr.
    destruct Hr as (template & url & Ht & Hurl & Hget & Hst).
    rewrite Ht; cbn [bind]. rewrite Hurl; cbn [bind].
    rewrite Hget; cbn [bind]. rewrite Hst; cbn [bind].
    rewrite Hdata; cbn [bind]. rewrite Hc; cbn [bind]. now rewrite Hu. }
  rewrite Hb. split.
  - intros a b -> ->. reflexivity.
  - intros n -> [[b ->]|[->|[m ->]]]; reflexivity.
Qed.

(** X26: the constructor lets an endpoint with a slot of its own through,
    and on such an endpoint no request is ever sent: every operation raises
    [IndexError] while its URL is formatted, whatever the network would
    answer. *)
Theorem endpoint_with_slot_breaks_requests self pre post arg :
  network_endpoint self = (pre ++ "{}" ++ post)%string ->
  brace_free pre = true -> brace_free post = true ->
  get_balance http_get self arg = Raise IndexError
  /\ get_transactions http_get self arg = Raise IndexError
  /\ get_transaction http_get self arg = Raise IndexError
  /\ (forall i, get_tx_amount http_get self arg i = Raise IndexError)
  /\ get_unspent http_get currency_to_satoshi self arg = Raise IndexError
  /\ get_raw_transaction http_get self arg = Raise IndexError
  /\ broadcast_tx http_get self arg = Raise IndexError.
Proof.
  intros He Hpre Hpost.
  assert (Hq : forall path,
             In path ["unspent"; "address"; "raw-tx"; "tx-details"] ->
             request_url self path arg = Raise IndexError)
    by (intros path Hin; now apply request_url_second_slot with pre post).
  assert (Hfetch : forall path,
             In path ["unspent"; "address"; "raw-tx"; "tx-details"] ->
             fetch_response http_get self path arg = Raise IndexError).
  { intros path Hin. unfold fetch_response. now rewrite (Hq path Hin). }
  destruct (reads_fail_with_fetch http_get currency_to_satoshi self arg
              IndexError) as (Ha & Ht & Hu).
  destruct (Ha (Hfetch "address" ltac:(cbn; auto))) as [H1 H2].
  destruct (Ht (Hfetch "tx-details" ltac:(cbn; auto))) as (H3 & H4 & H5).
  pose proof (Hu (Hfetch "unspent" ltac:(cbn; auto))) as H6.
  repeat (split; [assumption|]).
  pose proof (Hq "raw-tx" ltac:(cbn; auto)) as H7.
  unfold request_url in H7. unfold broadcast_tx.
  destruct (make_endpoint_url self "raw-tx") as [t|e]; cbn [bind] in *;
    [now rewrite H7 | congruence].
Qed.

End ClientEdges.

(** ** Instances of the further properties *)

Lemma transport_failure_propagates_witness :
  get_balance (fun _ _ => Raise RequestException) regtest "bchtest:qa"
  = Raise RequestException
  /\ broadcast_tx (fun _ _ => Raise RequestException) regtest "0100"
     = Raise RequestException.
Proof.
  split.
  - apply (proj1 (transport_failure_propagates
                    (fun _ _ => Raise RequestException) whole_coins regtest
                    "bchtest:qa" RequestException)).
    eexists. split; reflexivity.
  - apply (proj2 (proj2 (proj2 (transport_failure_propagates
                                  (fun _ _ => Raise RequestException)
                                  whole_coins regtest "0100"
                                  RequestException)))).
    eexists. split; reflexivity.
Defined.

Lemma error_status_raises_HTTPError_witness :
  get_transaction (answering (Response 404 (Some tx_details))) regtest "4a5e"
  = Raise HTTPError.
Proof.
  apply (proj1 (proj2 (error_status_raises_HTTPError
                         (answering (Response 404 (Some tx_details)))
                         whole_coins regtest "4a5e"
                         (Response 404 (Some tx_details))
                         ltac:(unfold error_status; cbn; lia)))).
  eexists. split; reflexivity.
Defined.

Lemma other_statuses_pass_witness :
  get_raw_transaction (answering (Response 301 (Some tx_details))) regtest
    "4a5e" = Ok tx_details_doc.
Proof.
  rewrite (proj1 (other_statuses_pass
                    (answering (Response 301 (Some tx_details))) regtest
                    "4a5e" (Response 301 (Some tx_details))
                    ltac:(unfold error_status; cbn; lia))).
  - vm_compute. reflexivity.
  - eexists. split; reflexivity.
Defined.

Lemma undecodable_body_raises_witness :
  get_unspent (answering (Response 200 None)) whole_coins regtest "bchtest:qa"
  = Raise JSONDecodeError.
Proof.
  apply (proj2 (proj2 (undecodable_body_raises
                         (answering (Response 200 None)) whole_coins regtest
                         "bchtest:qa" (Response 200 None) eq_refl))).
  reflexivity.
Defined.

Lemma non_object_document_raises_TypeError_witness :
  get_balance (answering (Response 200 (Some (JArr [])))) regtest "bchtest:qa"
  = Raise TypeError.
Proof.
  exact (proj1 (proj1 (non_object_document_raises_TypeError
                         (answering (Response 200 (Some (JArr [])))) whole_coins
                         regtest "bchtest:qa" (Response 200 (Some (JArr [])))
                         (VList []) ltac:(discriminate))
                  eq_refl eq_refl)).
Defined.

Lemma missing_field_raises_KeyError_witness :
  get_balance (answering (Response 200 (Some (JObj [("balanceSat", JInt 5)]))))
    regtest "bchtest:qa" = Raise KeyError.
Proof.
  apply (proj1 (proj1 (missing_field_raises_KeyError
                         (answering (Response 200 (Some (JObj [("balanceSat", JInt 5)]))))
                         whole_coins regtest "bchtest:qa"
                         (Response 200 (Some (JObj [("balanceSat", JInt 5)])))
                         [("balanceSat", VInt 5)])
                  eq_refl eq_refl)).
  right. reflexivity.
Defined.

Lemma get_balance_sums_witness :
  get_balance (answering (Response 200 (Some address_details))) regtest
    "bchtest:qa" = Ok (VInt (500 + -200)).
Proof.
  apply (get_balance_sums (answering (Response 200 (Some address_details)))
           regtest "bchtest:qa" (Response 200 (Some address_details))
           (VDict [ ("balanceSat", VInt 500);
                    ("unconfirmedBalanceSat", VInt (-200));
                    ("transactions", VList [VStr "4a5e"]) ]));
    reflexivity.
Defined.

Lemma get_transaction_agrees_with_raw_witness :
  exists doc value_in value_out fees,
    get_raw_transaction (answering tx_details_again) regtest "4a5e" = Ok doc
    /\ getitem_key doc "txid" = Ok (txid tx_details_tx)
    /\ getitem_key doc "blockheight" = Ok (block tx_details_tx)
    /\ getitem_key doc "valueIn" = Ok value_in
    /\ to_satoshi value_in = Ok (amount_in tx_details_tx)
    /\ getitem_key doc "valueOut" = Ok value_out
    /\ to_satoshi value_out = Ok (amount_out tx_details_tx)
    /\ getitem_key doc "fees" = Ok fees
    /\ to_satoshi fees = Ok (amount_fee tx_details_tx).
Proof.
  apply (get_transaction_agrees_with_raw
           (answering tx_details_response) (answering tx_details_again)
           regtest "4a5e" tx_details_response tx_details_again tx_details_tx);
    vm_compute; reflexivity.
Defined.

Lemma get_tx_amount_agrees_with_get_transaction_witness :
  get_tx_amount (answering tx_details_again) regtest "4a5e" (Z.of_nat 1)
  = Ok (VDec (Fin false 26533211 0)).
Proof.
  apply (get_tx_amount_agrees_with_get_transaction
           (answering tx_details_response) (answering tx_details_again)
           regtest "4a5e" tx_details_response tx_details_again tx_details_tx 1
           (mkTxPart VNone (VDec (Fin false 26533211 0)) (VStr "OP_RETURN")));
    vm_compute; reflexivity.
Defined.

Lemma get_transaction_part_fields_witness :
  Forall2 (fun txin part =>
             getitem_key txin "cashAddress" = Ok (address part)
             /\ getitem_key txin "value" = Ok (amount part)
             /\ (sig <- getitem_key txin "scriptSig" ;; getitem_key sig "asm")
                = Ok (asm part))
          tx_details_vin (inputs tx_details_tx)
  /\ Forall2 (fun txout part =>
                (v <- getitem_key txout "value" ;; to_satoshi v)
                = Ok (amount part)
                /\ (spk <- getitem_key txout "scriptPubKey" ;;
                    getitem_key spk "asm") = Ok (asm part))
             tx_details_vout (outputs tx_details_tx).
Proof.
  apply (get_transaction_part_fields (answering tx_details_response) regtest
           "4a5e" tx_details_response tx_details_doc);
    vm_compute; reflexivity.
Defined.

Lemma get_transaction_needs_arrays_witness :
  exists doc vin vout,
    get_raw_transaction (answering tx_details_response) regtest "4a5e" = Ok doc
    /\ getitem_key doc "vin" = Ok vin
    /\ getitem_key doc "vout" = Ok vout
    /\ ((exists l, vin = VList l)
        \/ (inputs tx_details_tx = [] /\ (vin = VDict [] \/ vin = VStr "")))
    /\ ((exists l, vout = VList l)
        \/ (outputs tx_details_tx = [] /\ (vout = VDict [] \/ vout = VStr ""))).
Proof.
  apply (get_transaction_needs_arrays (answering tx_details_response) regtest
           "4a5e" tx_details_tx).
  vm_compute. reflexivity.
Defined.

Lemma get_unspent_empty_and_missing_script_witness :
  get_unspent (answering (Response 200 (Some (JObj [("utxos", JArr [])]))))
    whole_coins regtest "bchtest:qa" = Ok [].
Proof.
  apply (proj1 (get_unspent_empty_and_missing_script
                  (answering (Response 200 (Some (JObj [("utxos", JArr [])]))))
                  whole_coins regtest "bchtest:qa"
                  (Response 200 (Some (JObj [("utxos", JArr [])])))
                  (VDict [("utxos", VList [])]) eq_refl eq_refl)).
  reflexivity.
Defined.

Lemma get_unspent_records_witness :
  List.length utxo_records = List.length utxo_entries
  /\ Forall2 (fun tx u =>
                (a <- getitem_key tx "amount" ;; whole_coins a "bch")
                = Ok (u_amount u)
                /\ getitem_key tx "confirmations" = Ok (u_confirmations u))
             utxo_entries utxo_records.
Proof.
  apply (get_unspent_records (answering utxo_response) whole_coins regtest
           "bchtest:qa" utxo_response utxo_doc);
    vm_compute; reflexivity.
Defined.

Lemma request_url_is_verbatim_witness :
  request_url regtest "tx-details" "4a5e"
  = Ok "http://localhost:12500/v2/transaction/details/4a5e".
Proof.
  apply (proj2 (proj2 (proj2 (request_url_is_verbatim regtest "4a5e" eq_refl)))).
Defined.

Lemma request_urls_are_distinct_witness :
  "unspent" = "unspent" /\ "bchtest:qa" = "bchtest:qa".
Proof.
  apply (request_urls_are_distinct regtest "unspent" "unspent"
           "bchtest:qa" "bchtest:qa"
           "http://localhost:12500/v2/address/utxo/bchtest:qa");
    reflexivity.
Defined.

Lemma constructed_client_invariant_witness :
  VStr "http://localhost:12500/v2/" = VStr (network_endpoint regtest)
  /\ starts_with "http" (network_endpoint regtest)
  /\ ends_with "/v2/" (network_endpoint regtest)
  /\ (8 <= String.length (network_endpoint regtest))%nat
  /\ (forall path url,
         make_endpoint_url regtest path = Ok url -> starts_with "http" url).
Proof.
  apply (constructed_client_invariant (VStr "http://localhost:12500/v2/")).
  reflexivity.
Defined.

Lemma default_endpoints_are_valid_witness :
  (In "testnet" ["mainnet"; "testnet"; "regtest"]
   /\ init (VStr "https://trest.bitcoin.com/v2/")
      = Ok (mkAPI "https://trest.bitcoin.com/v2/")
   /\ brace_free "https://trest.bitcoin.com/v2/" = true)
  /\ (exists url,
         get_default_endpoint "regtest" = Ok url
         /\ init (VStr url) = Ok (mkAPI url)
         /\ brace_free url = true)
  /\ get_default_endpoint "bchtest" = Raise KeyError.
Proof.
  split; [|split].
  - apply (proj1 (default_endpoints_are_valid "testnet")). reflexivity.
  - apply (proj1 (proj2 (default_endpoints_are_valid "regtest"))).
    cbn [In]. auto.
  - apply (proj2 (proj2 (default_endpoints_are_valid "bchtest"))).
    cbn [In]. intros [H|[H|[H|[]]]]; discriminate H.
Defined.

Lemma to_satoshi_is_normalized_witness :
  false = false /\ ((1 = 0 /\ 8 = 0) \/ (0 < 1 /\ 1 mod 10 <> 0)).
Proof.
  apply (to_satoshi_is_normalized (VStr "1.00") false false 100 (-2) 1 8).
  - reflexivity.
  - lia.
  - vm_compute. reflexivity.
Defined.

Lemma to_satoshi_keeps_fraction_witness :
  exists d,
    to_satoshi (VStr "0.000000001") = Ok (VDec d) /\ is_integral d = false.
Proof.
  apply (to_satoshi_keeps_fraction (VStr "0.000000001") false 1 (-9)).
  - reflexivity.
  - lia.
  - unfold Etiny, Emin, prec. lia.
  - vm_compute. discriminate.
Defined.

Lemma to_satoshi_of_integer_witness :
  exists d,
    to_satoshi (VInt (-21000000)) = Ok (VDec d)
    /\ eq_int d (-21000000 * 10 ^ 8) = true
    /\ is_integral d = true.
Proof.
  apply to_satoshi_of_integer. vm_compute. reflexivity.
Defined.

Lemma json_number_converts_exactly_witness :
  exists v d,
    loads true (JReal "1.5") = Ok v
    /\ to_satoshi v = Ok (VDec d)
    /\ to_satoshi (VStr "1.5") = Ok (VDec d)
    /\ eq_int d (15 * 10 ^ 7) = true.
Proof.
  apply (json_number_converts_exactly false ["1"%char] ["5"%char]).
  - reflexivity.
  - reflexivity.
  - discriminate.
  - simpl. lia.
  - vm_compute. reflexivity.
Defined.

Lemma to_satoshi_of_special_witness :
  to_satoshi (VStr "-Infinity") = Ok (VDec (Inf true))
  /\ to_satoshi (VStr "NaN") = Ok (VDec (NaN false false (0 mod 10 ^ prec)))
  /\ to_satoshi (VStr "sNaN") = Raise InvalidOperation.
Proof.
  split; [|split].
  - apply (proj1 (to_satoshi_of_special (VStr "-Infinity") true)).
    reflexivity.
  - apply (proj1 (proj2 (to_satoshi_of_special (VStr "NaN") false)) 0).
    reflexivity.
  - apply (proj2 (proj2 (to_satoshi_of_special (VStr "sNaN") false)) 0).
    reflexivity.
Defined.


Lemma get_tx_amount_counts_from_end_witness :
  (exists txout,
      nth_error tx_details_vout
        (Z.to_nat (-1 + Z.of_nat (List.length tx_details_vout))) = Some txout
      /\ get_tx_amount (answering tx_details_response) regtest "4a5e" (-1)
         = (v <- getitem_key txout "value" ;; to_satoshi v))
  /\ get_tx_amount (answering tx_details_response) regtest "4a5e" (-4)
     = Raise IndexError.
Proof.
  split.
  - apply (proj1 (get_tx_amount_counts_from_end
                    (answering tx_details_response) regtest "4a5e"
                    tx_details_response tx_details_doc tx_details_vout (-1)
                    eq_refl eq_refl eq_refl ltac:(lia))).
    cbn. lia.
  - apply (proj2 (get_tx_amount_counts_from_end
                    (answering tx_details_response) regtest "4a5e"
                    tx_details_response tx_details_doc tx_details_vout (-4)
                    eq_refl eq_refl eq_refl ltac:(lia))).
    cbn. lia.
Defined.

Lemma get_balance_of_other_values_witness :
  get_balance
    (answering (Response 200 (Some (JObj [ ("balanceSat", JStr "500");
                                           ("unconfirmedBalanceSat", JStr "-200") ]))))
    regtest "bchtest:qa" = Ok (VStr "500-200").
Proof.
  apply (proj1 (get_balance_of_other_values
                  (answering (Response 200 (Some (JObj [ ("balanceSat", JStr "500");
                                                         ("unconfirmedBalanceSat", JStr "-200") ]))))
                  regtest "bchtest:qa"
                  (Response 200 (Some (JObj [ ("balanceSat", JStr "500");
                                              ("unconfirmedBalanceSat", JStr "-200") ])))
                  (VDict [ ("balanceSat", VStr "500");
                           ("unconfirmedBalanceSat", VStr "-200") ])
                  (VStr "500") (VStr "-200")
                  eq_refl eq_refl eq_refl eq_refl) "500" "-200" eq_refl eq_refl).
Defined.

Lemma endpoint_with_slot_breaks_requests_witness :
  init (VStr "http://{}/v2/") = Ok (mkAPI "http://{}/v2/")
  /\ get_balance (answering tx_details_response) (mkAPI "http://{}/v2/")
       "bchtest:qa" = Raise IndexError.
Proof.
  split; [reflexivity|].
  apply (endpoint_with_slot_breaks_requests (answering tx_details_response)
           whole_coins (mkAPI "http://{}/v2/") "http://" "/v2/" "bchtest:qa");
    reflexivity.
Defined.
